(** * The WebSocket action bar ([ui/components/websockets/action-bar.tsx])

    A shallow embedding of the [WebSocketActionBar] component: the data it
    reads, the collaborators it calls, its [handleSubmit] callback and the
    props it hands to the URL editor, followed by the properties of the
    connection composer contract.

    The component is single-threaded glue code.  Every [await] of
    [handleSubmit] is sequenced in program order; one invocation is one
    computation in the monad [M] below, which threads the document store
    and records, in order, every call made to a collaborator. *)

From Stdlib Require Import String Ascii List Bool.
From stdpp Require Import base option list strings gmap.
Import ListNotations.

Local Open Scope string_scope.
Local Open Scope list_scope.

(** ** Data model *)

(** Modelled from the spec: the [RequestParameter] type is declared outside
    [action-bar.tsx]; the spec gives each query parameter a key, a value and
    a disabled flag.  The optional flag of the source ([p.disabled] may be
    undefined, which [!p.disabled] treats as enabled) is a [bool] whose
    [false] covers the undefined case. *)
Module RequestParameter.
Record t := mk { key : string; value : string; disabled : bool }.
End RequestParameter.

(** Modelled from the spec: "ordered list of header entries". *)
Module RequestHeader.
Record t := mk { name : string; value : string }.
End RequestHeader.

(** Modelled from the spec: "authentication settings", an object of string
    properties (type, token, username, ...) kept in source order. *)
Definition RequestAuthentication : Type := list (string * string).

(** Modelled from the spec: the per-workspace cookie jar, "a per-workspace
    persisted collection of cookies", keyed by the identifier of its parent. *)
Module Cookie.
Record t := mk { key : string; value : string; domain : string; path : string }.
End Cookie.

Module CookieJar.
Record t := mk { parentId : string; cookies : list Cookie.t }.
End CookieJar.

(** [WebSocketRequest], as far as the component reads it. *)
Module WebSocketRequest.
Record t := mk {
  _id : string;
  url : string;
  headers : list RequestHeader.t;
  authentication : RequestAuthentication;
  parameters : list RequestParameter.t;
  suppressUserAgent : bool
}.
End WebSocketRequest.

(** The [payload] object literal built by [handleSubmit] (lines 98-104).
    It has exactly these five properties. *)
Module Payload.
Record t := mk {
  url : string;
  headers : list RequestHeader.t;
  authentication : RequestAuthentication;
  parameters : list RequestParameter.t;
  workspaceCookieJar : CookieJar.t
}.
End Payload.

(** What [handleSubmit] reads back from the interpolation result
    (lines 107-111).  [suppressUserAgent] is [None] when the result object
    has no such property (JavaScript [undefined]). *)
Module Rendered.
Record t := mk {
  url : string;
  headers : list RequestHeader.t;
  authentication : RequestAuthentication;
  parameters : list RequestParameter.t;
  workspaceCookieJar : CookieJar.t;
  suppressUserAgent : option bool
}.
End Rendered.

(** [ConnectActionParams], the object literal passed to [connect]
    (lines 106-112). *)
Module ConnectActionParams.
Record t := mk {
  url : string;
  headers : list RequestHeader.t;
  authentication : RequestAuthentication;
  cookieJar : CookieJar.t;
  suppressUserAgent : option bool
}.
End ConnectActionParams.

(** The route parameters read with [useParams] (line 76). *)
Module RouteParams.
Record t := mk {
  organizationId : string;
  projectId : string;
  workspaceId : string;
  requestId : string
}.
End RouteParams.

(** [ActionBarProps] (lines 26-32).  The owner's [onChange] callback is not a
    field: calling it is the observable event [OnChange] below. *)
Module ActionBarProps.
Record t := mk {
  request : WebSocketRequest.t;
  environmentId : string;
  defaultValue : string;
  readyState : bool
}.
End ActionBarProps.

(** Modelled from the spec: the only error kind of this layer, an
    "unresolved or malformed template expression". *)
Inductive RenderError : Type :=
  | UnresolvedVariable (name : string)
  | MalformedTemplate (template : string).

(** Modelled from the spec: [interpolate(request, environmentId, payload) →
    resolved | renderErrorReport]. *)
Inductive InterpolationResult : Type :=
  | Resolved (rendered : Rendered.t)
  | RenderErrorReport (error : RenderError).

(** ** Calls to collaborators

    Everything the component does to the outside world is a call to one of
    these.  A run of the component yields the list of calls it made, oldest
    first. *)
Inductive Call : Type :=
  | WebSocketClose (requestId : string)
      (* window.main.webSocket.close({ requestId }) *)
  | GetOrCreateForParentId (parentId : string)
      (* models.cookieJar.getOrCreateForParentId(parentId) *)
  | Interpolate (request : WebSocketRequest.t) (environmentId : string)
                (payload : Payload.t)
      (* tryToInterpolateRequestOrShowRenderErrorModal({ request, environmentId, payload }) *)
  | ShowRenderErrorModal (request : WebSocketRequest.t) (error : RenderError)
      (* the render-error report shown to the user *)
  | FetcherSubmit (body : ConnectActionParams.t) (action method encType : string)
      (* fetcher.submit(JSON.stringify(body), { action, method, encType }) *)
  | OnChange (value : string).
      (* the owner's onChange(value) *)

(** The documents the component can reach: the cookie jars by parent
    identifier, the stored requests by identifier, and the text held by the
    URL editor. *)
Record Store := mkStore {
  cookieJars : gmap string CookieJar.t;
  requests : gmap string WebSocketRequest.t;
  urlField : string
}.

(** ** The effect monad: store passing plus the list of calls made *)

Definition M (A : Type) : Type := Store -> A * Store * list Call.

Definition ret {A : Type} (a : A) : M A := fun s => (a, s, []).

Definition bind {A B : Type} (m : M A) (k : A -> M B) : M B :=
  fun s =>
    let '(a, s1, t1) := m s in
    let '(b, s2, t2) := k a s1 in
    (b, s2, t1 ++ t2).

Definition call (c : Call) : M unit := fun s => (tt, s, [c]).

Declare Scope action_scope.
Delimit Scope action_scope with action.
Notation "x <- m ;; k" := (bind m (fun x => k))
  (at level 100, m at next level, right associativity) : action_scope.
Notation "m ;;; k" := (bind m (fun _ => k))
  (at level 100, right associativity) : action_scope.
Local Open Scope action_scope.

Definition result {A : Type} (r : A * Store * list Call) : A := fst (fst r).
Definition storeOf {A : Type} (r : A * Store * list Call) : Store := snd (fst r).
Definition callsOf {A : Type} (r : A * Store * list Call) : list Call := snd r.

(** *** Reading a list of calls *)

Definition connectCommands (t : list Call) : list ConnectActionParams.t :=
  omap (fun c => match c with FetcherSubmit b _ _ _ => Some b | _ => None end) t.

Definition closeCommands (t : list Call) : list string :=
  omap (fun c => match c with WebSocketClose r => Some r | _ => None end) t.

Definition errorReports (t : list Call) : list RenderError :=
  omap (fun c => match c with ShowRenderErrorModal _ e => Some e | _ => None end) t.

Definition interpolations (t : list Call) : list Payload.t :=
  omap (fun c => match c with Interpolate _ _ p => Some p | _ => None end) t.

(** The number of connect and close commands in a list of calls. *)
Definition commandCount (t : list Call) : nat :=
  length (connectCommands t) + length (closeCommands t).

(** ** Collaborators *)

(** Modelled from the spec: [models.cookieJar.getOrCreateForParentId] is
    outside [action-bar.tsx]; the spec makes it an "idempotent
    fetch-or-create" of the jar "keyed by workspace identifier".  The spec
    does not say what a created jar holds; here it holds no cookie. *)
Definition getOrCreateForParentId (parentId : string) : M CookieJar.t :=
  fun s =>
    match cookieJars s !! parentId with
    | Some jar => (jar, s, [GetOrCreateForParentId parentId])
    | None =>
        let jar := CookieJar.mk parentId [] in
        (jar,
         mkStore (<[parentId := jar]> (cookieJars s)) (requests s) (urlField s),
         [GetOrCreateForParentId parentId])
    end.

(** ** The rendered view (lines 135-173) *)

(** The props the component passes to [OneLineEditor] (lines 153-164).
    [onKeyDown] is the keybinding table built by [createKeybindingsHandler],
    whose only entry is [Enter]. *)
Module OneLineEditorProps.
Record t := mk {
  id : string;
  onKeyDownEnter : M unit;
  readOnly : bool;
  placeholder : string;
  defaultValue : string;
  onChange : string -> M unit;
  type : string
}.
End OneLineEditorProps.

(** The button at the right of the form (lines 167-169). *)
Inductive FormButton : Type :=
  | ConnectButton
  | DisconnectButton (requestId : string).

Record View := mkView {
  webSocketIcon : bool;       (* {!isOpen && <WebSocketIcon>} *)
  connectionStatus : bool;    (* {isOpen && <ConnectionStatus>} *)
  formAriaDisabled : bool;
  formOnSubmit : M unit;
  urlBar : OneLineEditorProps.t;
  formButton : FormButton
}.

Section Composer.

(** The pure collaborators imported by the component.  [interpolate] is the
    template resolution behind
    [tryToInterpolateRequestOrShowRenderErrorModal]; the other two come
    from [utils/url/querystring]. *)
Variable interpolate :
  WebSocketRequest.t -> string -> Payload.t -> InterpolationResult.
Variable buildQueryStringFromParams : list RequestParameter.t -> string.
Variable joinUrlAndQueryString : string -> string -> string.

(** Modelled from the spec: [tryToInterpolateRequestOrShowRenderErrorModal]
    is outside [action-bar.tsx].  By the spec it is the "pure resolution of
    template expressions; side effect limited to possibly showing an error
    modal on failure"; a failure yields no rendered object ([undefined]). *)
Definition tryToInterpolateRequestOrShowRenderErrorModal
    (request : WebSocketRequest.t) (environmentId : string)
    (payload : Payload.t) : M (option Rendered.t) :=
  call (Interpolate request environmentId payload) ;;;
  match interpolate request environmentId payload with
  | Resolved rendered => ret (Some rendered)
  | RenderErrorReport error =>
      call (ShowRenderErrorModal request error) ;;; ret None
  end.

(** The route the connect action is posted to (line 81). *)
Definition connectAction (params : RouteParams.t) : string :=
  "/organization/" +:+ RouteParams.organizationId params
  +:+ "/project/" +:+ RouteParams.projectId params
  +:+ "/workspace/" +:+ RouteParams.workspaceId params
  +:+ "/debug/request/" +:+ RouteParams.requestId params
  +:+ "/connect".

(** [connect] (lines 78-85). *)
Definition connect (params : RouteParams.t)
    (connectParams : ConnectActionParams.t) : M unit :=
  call (FetcherSubmit connectParams (connectAction params)
          "post" "application/json").

(** The payload handed to interpolation (lines 98-104). *)
Definition payloadOf (request : WebSocketRequest.t)
    (workspaceCookieJar : CookieJar.t) : Payload.t :=
  {| Payload.url := WebSocketRequest.url request;
     Payload.headers := WebSocketRequest.headers request;
     Payload.authentication := WebSocketRequest.authentication request;
     Payload.parameters :=
       List.filter (fun p => negb (RequestParameter.disabled p))
                   (WebSocketRequest.parameters request);
     Payload.workspaceCookieJar := workspaceCookieJar |}.

(** The object literal passed to [connect] (lines 106-112). *)
Definition connectParamsOf (rendered : Rendered.t) : ConnectActionParams.t :=
  {| ConnectActionParams.url :=
       joinUrlAndQueryString (Rendered.url rendered)
         (buildQueryStringFromParams (Rendered.parameters rendered));
     ConnectActionParams.headers := Rendered.headers rendered;
     ConnectActionParams.authentication := Rendered.authentication rendered;
     ConnectActionParams.cookieJar := Rendered.workspaceCookieJar rendered;
     ConnectActionParams.suppressUserAgent :=
       Rendered.suppressUserAgent rendered |}.

(** [handleSubmit] (lines 87-114). *)
Definition handleSubmit (params : RouteParams.t) (props : ActionBarProps.t)
    : M unit :=
  let request := ActionBarProps.request props in
  let isOpen := ActionBarProps.readyState props in
  if isOpen then
    call (WebSocketClose (WebSocketRequest._id request))
  else
    workspaceCookieJar <-
      getOrCreateForParentId (RouteParams.workspaceId params) ;;
    rendered <-
      tryToInterpolateRequestOrShowRenderErrorModal request
        (ActionBarProps.environmentId props)
        (payloadOf request workspaceCookieJar) ;;
    match rendered with
    | Some rendered => connect params (connectParamsOf rendered)
    | None => ret tt
    end.

(** The jar [getOrCreateForParentId] returns for the workspace of the route,
    and the store it leaves. *)
Definition fetchedJar (params : RouteParams.t) (s : Store) : CookieJar.t :=
  result (getOrCreateForParentId (RouteParams.workspaceId params) s).

Definition storeAfterFetch (params : RouteParams.t) (s : Store) : Store :=
  storeOf (getOrCreateForParentId (RouteParams.workspaceId params) s).

(** The payload of the run. *)
Definition submittedPayload (params : RouteParams.t)
    (props : ActionBarProps.t) (s : Store) : Payload.t :=
  payloadOf (ActionBarProps.request props) (fetchedJar params s).

(** The interpolation result of the run. *)
Definition interpolated (params : RouteParams.t) (props : ActionBarProps.t)
    (s : Store) : InterpolationResult :=
  interpolate (ActionBarProps.request props)
    (ActionBarProps.environmentId props) (submittedPayload params props s).

(** The JSX returned by [WebSocketActionBar]. *)
Definition WebSocketActionBar (params : RouteParams.t)
    (props : ActionBarProps.t) : View :=
  let request := ActionBarProps.request props in
  let readyState := ActionBarProps.readyState props in
  let isOpen := readyState in
  let isConnectingOrClosed := negb readyState in
  {| webSocketIcon := negb isOpen;
     connectionStatus := isOpen;
     formAriaDisabled := isOpen;
     formOnSubmit := handleSubmit params props;
     urlBar :=
       {| OneLineEditorProps.id := "websocket-url-bar";
          OneLineEditorProps.onKeyDownEnter := handleSubmit params props;
          OneLineEditorProps.readOnly := readyState;
          OneLineEditorProps.placeholder := "wss://example.com/chat";
          OneLineEditorProps.defaultValue := ActionBarProps.defaultValue props;
          OneLineEditorProps.onChange := fun value => call (OnChange value);
          OneLineEditorProps.type := "text" |};
     formButton :=
       if isConnectingOrClosed then ConnectButton
       else DisconnectButton (WebSocketRequest._id request) |}.

End Composer.

(** Modelled from the spec: [OneLineEditor] is outside [action-bar.tsx].  By
    the spec the [onChange] prop is "fired on every URL-field edit" with the
    raw text.  An edit puts the text in the field and fires the prop. *)
Definition editUrl (editor : OneLineEditorProps.t) (newText : string)
    : M unit :=
  (fun s => (tt, mkStore (cookieJars s) (requests s) newText, [])) ;;;
  OneLineEditorProps.onChange editor newText.

(** ** Concrete collaborators

    The three pure collaborators are parameters of the component above.
    The definitions of this module instantiate them where a property is
    evaluated on a concrete request. *)
Module Collaborators.

(** Modelled from the spec: the result of rendering one string is the
    rendered text or a render error. *)
Definition mapResult {A B : Type} (f : A -> B + RenderError)
    : list A -> list B + RenderError :=
  fix go (l : list A) : list B + RenderError :=
    match l with
    | [] => inl []
    | a :: l' =>
        match f a with
        | inr e => inr e
        | inl b =>
            match go l' with
            | inr e => inr e
            | inl bs => inl (b :: bs)
            end
        end
    end.

(** Modelled from the spec: template resolution is outside
    [action-bar.tsx].  A template expression is [{{name}}]; it resolves to the
    value of [name] in the environment, is "unresolved" when the environment
    has no such variable and "malformed" when it is not closed.  [tag] holds
    the name read so far while inside an expression. *)
Fixpoint renderFrom (env : gmap string string) (whole : string)
    (tag : option string) (s : string) : string + RenderError :=
  match tag, s with
  | None, EmptyString => inl EmptyString
  | None, String "{" (String "{" rest) => renderFrom env whole (Some "") rest
  | None, String c rest =>
      match renderFrom env whole None rest with
      | inl r => inl (String c r)
      | inr e => inr e
      end
  | Some _, EmptyString => inr (MalformedTemplate whole)
  | Some name, String "}" (String "}" rest) =>
      match env !! name with
      | None => inr (UnresolvedVariable name)
      | Some v =>
          match renderFrom env whole None rest with
          | inl r => inl (v +:+ r)
          | inr e => inr e
          end
      end
  | Some name, String c rest =>
      renderFrom env whole (Some (name +:+ String c EmptyString)) rest
  end.

Definition renderString (env : gmap string string) (s : string)
    : string + RenderError :=
  renderFrom env s None s.

Definition renderHeader (env : gmap string string) (h : RequestHeader.t)
    : RequestHeader.t + RenderError :=
  match renderString env (RequestHeader.name h) with
  | inr e => inr e
  | inl n =>
      match renderString env (RequestHeader.value h) with
      | inr e => inr e
      | inl v => inl (RequestHeader.mk n v)
      end
  end.

Definition renderSetting (env : gmap string string) (kv : string * string)
    : string * string + RenderError :=
  match renderString env (snd kv) with
  | inr e => inr e
  | inl v => inl (fst kv, v)
  end.

Definition renderParameter (env : gmap string string)
    (p : RequestParameter.t) : RequestParameter.t + RenderError :=
  match renderString env (RequestParameter.key p) with
  | inr e => inr e
  | inl k =>
      match renderString env (RequestParameter.value p) with
      | inr e => inr e
      | inl v => inl (RequestParameter.mk k v (RequestParameter.disabled p))
      end
  end.

Definition renderCookie (env : gmap string string) (c : Cookie.t)
    : Cookie.t + RenderError :=
  match renderString env (Cookie.value c) with
  | inr e => inr e
  | inl v => inl (Cookie.mk (Cookie.key c) v (Cookie.domain c) (Cookie.path c))
  end.

(** Modelled from the spec: [interpolate(request, environmentId, payload)],
    the "pure resolution of template expressions" of the payload against the
    variables of the selected environment.  Following the comment at line 92
    of the source ("Render any nunjucks tags in the
    url/headers/authentication settings/cookies"), every string of the
    payload is rendered, the cookie values included.  The result has the
    properties of the payload, so it has no [suppressUserAgent]. *)
Definition interpolate (environments : gmap string (gmap string string))
    (request : WebSocketRequest.t) (environmentId : string)
    (payload : Payload.t) : InterpolationResult :=
  let env := default ∅ (environments !! environmentId) in
  match renderString env (Payload.url payload) with
  | inr e => RenderErrorReport e
  | inl url =>
  match mapResult (renderHeader env) (Payload.headers payload) with
  | inr e => RenderErrorReport e
  | inl headers =>
  match mapResult (renderSetting env) (Payload.authentication payload) with
  | inr e => RenderErrorReport e
  | inl authentication =>
  match mapResult (renderParameter env) (Payload.parameters payload) with
  | inr e => RenderErrorReport e
  | inl parameters =>
  match mapResult (renderCookie env)
          (CookieJar.cookies (Payload.workspaceCookieJar payload)) with
  | inr e => RenderErrorReport e
  | inl cookies =>
      Resolved
        {| Rendered.url := url;
           Rendered.headers := headers;
           Rendered.authentication := authentication;
           Rendered.parameters := parameters;
           Rendered.workspaceCookieJar :=
             CookieJar.mk
               (CookieJar.parentId (Payload.workspaceCookieJar payload))
               cookies;
           Rendered.suppressUserAgent := None |}
  end end end end end.

(** Modelled from the spec: [buildQueryStringFromParams] is outside
    [action-bar.tsx]; "pure string composition" of [key=value] items joined
    by [&], as in the spec's example.  Percent-encoding is not modelled. *)
Definition buildQueryParameter (p : RequestParameter.t) : string :=
  RequestParameter.key p +:+ "=" +:+ RequestParameter.value p.

Definition buildQueryStringFromParams (parameters : list RequestParameter.t)
    : string :=
  String.concat "&" (List.map buildQueryParameter parameters).

(** Modelled from the spec: [joinUrlAndQueryString] is outside
    [action-bar.tsx]; "pure string composition" that appends the query
    string to the base URL after a [?], as in the spec's example.  An empty
    query string leaves the URL as it is. *)
Definition joinUrlAndQueryString (url qs : string) : string :=
  match qs with
  | EmptyString => url
  | _ => url +:+ "?" +:+ qs
  end.

End Collaborators.

(** ** Variations of a request *)

(** Replacing one property of a request, or the request of the props. *)
Definition withParameters (parameters : list RequestParameter.t)
    (request : WebSocketRequest.t) : WebSocketRequest.t :=
  {| WebSocketRequest._id := WebSocketRequest._id request;
     WebSocketRequest.url := WebSocketRequest.url request;
     WebSocketRequest.headers := WebSocketRequest.headers request;
     WebSocketRequest.authentication := WebSocketRequest.authentication request;
     WebSocketRequest.parameters := parameters;
     WebSocketRequest.suppressUserAgent :=
       WebSocketRequest.suppressUserAgent request |}.

Definition withSuppressUserAgent (flag : bool)
    (request : WebSocketRequest.t) : WebSocketRequest.t :=
  {| WebSocketRequest._id := WebSocketRequest._id request;
     WebSocketRequest.url := WebSocketRequest.url request;
     WebSocketRequest.headers := WebSocketRequest.headers request;
     WebSocketRequest.authentication := WebSocketRequest.authentication request;
     WebSocketRequest.parameters := WebSocketRequest.parameters request;
     WebSocketRequest.suppressUserAgent := flag |}.

Definition withRequest (request : WebSocketRequest.t)
    (props : ActionBarProps.t) : ActionBarProps.t :=
  {| ActionBarProps.request := request;
     ActionBarProps.environmentId := ActionBarProps.environmentId props;
     ActionBarProps.defaultValue := ActionBarProps.defaultValue props;
     ActionBarProps.readyState := ActionBarProps.readyState props |}.

Definition enabled (p : RequestParameter.t) : bool :=
  negb (RequestParameter.disabled p).

(** An identifier that holds no [/], as the identifiers of routes do. *)
Fixpoint slashFree (s : string) : bool :=
  match s with
  | EmptyString => true
  | String c rest => negb (Ascii.eqb c "/") && slashFree rest
  end.

Definition slashFreeRoute (params : RouteParams.t) : bool :=
  slashFree (RouteParams.organizationId params)
  && slashFree (RouteParams.projectId params)
  && slashFree (RouteParams.workspaceId params)
  && slashFree (RouteParams.requestId params).

(** ** Examples used throughout

    The request of the spec's example, an environment that resolves [host],
    and a route. *)
Module Sample.

Definition request : WebSocketRequest.t :=
  {| WebSocketRequest._id := "ws-req_1";
     WebSocketRequest.url := "wss://{{host}}/chat";
     WebSocketRequest.headers := [];
     WebSocketRequest.authentication := [];
     WebSocketRequest.parameters :=
       [ RequestParameter.mk "id" "1" false;
         RequestParameter.mk "dbg" "1" true ];
     WebSocketRequest.suppressUserAgent := true |}.

Definition environments : gmap string (gmap string string) :=
  {[ "env_1" := {[ "host" := "example.com"; "token" := "abc" ]} ]}.

Definition params : RouteParams.t :=
  RouteParams.mk "org_1" "proj_1" "wrk_1" "ws-req_1".

Definition props (readyState : bool) : ActionBarProps.t :=
  ActionBarProps.mk request "env_1" "wss://{{host}}/chat" readyState.

(** An environment identifier that selects no environment: [host] is
    unresolved there. *)
Definition propsNoHost : ActionBarProps.t :=
  ActionBarProps.mk request "env_0" "wss://{{host}}/chat" false.

Definition store : Store :=
  mkStore ∅ {[ "ws-req_1" := request ]} "wss://{{host}}/chat".

(** A request whose disabled parameter has the key of an enabled one. *)
Definition requestTwoIds : WebSocketRequest.t :=
  {| WebSocketRequest._id := "ws-req_1";
     WebSocketRequest.url := "wss://{{host}}/chat";
     WebSocketRequest.headers := [];
     WebSocketRequest.authentication := [];
     WebSocketRequest.parameters :=
       [ RequestParameter.mk "id" "1" false;
         RequestParameter.mk "id" "2" true ];
     WebSocketRequest.suppressUserAgent := false |}.

Definition propsTwoIds : ActionBarProps.t :=
  ActionBarProps.mk requestTwoIds "env_1" "wss://{{host}}/chat" false.

(** A store whose workspace jar holds a cookie with a template tag. *)
Definition sessionCookie (value : string) : Cookie.t :=
  Cookie.mk "session" value "example.com" "/".

Definition storeWithJar : Store :=
  mkStore {[ "wrk_1" := CookieJar.mk "wrk_1" [sessionCookie "{{token}}"] ]}
          {[ "ws-req_1" := request ]} "wss://{{host}}/chat".

Definition submit (props : ActionBarProps.t) (s : Store)
    : unit * Store * list Call :=
  handleSubmit (Collaborators.interpolate environments)
    Collaborators.buildQueryStringFromParams
    Collaborators.joinUrlAndQueryString params props s.

End Sample.

(** ** Hooks, effects and keyboard triggers (lines 68-133)

    A render of the component evaluates its body in a scope: the props, the
    route parameters and the fetcher.  [useCallback] keeps a function object
    of an earlier render while its dependency list is unchanged, and
    [useEffect] runs again, after the cleanup of its last run, when its
    dependency list changed.  Dependency lists are compared entry by entry
    with [Object.is]: strings and booleans by value, objects and functions
    by identity.  The identity of an object or of a function is a number. *)

(** The variables in scope in one render (lines 68-76).  [requestRef] is the
    identity of the object [props.request], [fetcher] that of the object
    returned by [useFetcher]. *)
Module Scope.
Record t := mk {
  props : ActionBarProps.t;
  requestRef : nat;
  params : RouteParams.t;
  fetcher : nat
}.
End Scope.

(** The function object [connect] of one render: its identity and the scope
    its body reads. *)
Module ConnectCallback.
Record t := mk { identity : nat; scope : Scope.t }.
End ConnectCallback.

(** The function object [handleSubmit] of one render.  Its body reads the
    scope of that render and the [connect] that [useCallback] returned in
    it. *)
Module SubmitCallback.
Record t := mk {
  identity : nat;
  scope : Scope.t;
  connect : ConnectCallback.t
}.
End SubmitCallback.

(** The function object [sendOnMetaEnter] of one run of the effect
    (lines 117-121); its body reads the [handleSubmit] of that render. *)
Module Listener.
Record t := mk { identity : nat; handleSubmit : SubmitCallback.t }.
End Listener.

(** The [KeyboardEvent] properties the component tests. *)
Module KeyboardEvent.
Record t := mk { key : string; metaKey : bool }.
End KeyboardEvent.

(** An entry of the listener list of a DOM element: event type, listener
    and the [capture] option. *)
Module Registration.
Record t := mk { type : string; listener : nat; capture : bool }.
End Registration.

(** Modelled from the spec: [OneLineEditorHandle] is declared outside
    [action-bar.tsx].  The spec has [focusEnd] set the "cursor to end of
    existing text" and the focus shortcut move "input focus to the URL
    field" and select "its full contents". *)
Record OneLineEditorHandle := mkHandle {
  focused : bool;
  selectionFrom : nat;
  selectionTo : nat
}.

Definition focusEnd (text : string) (_ : OneLineEditorHandle)
    : OneLineEditorHandle :=
  mkHandle true (String.length text) (String.length text).

Definition selectAll (text : string) (_ : OneLineEditorHandle)
    : OneLineEditorHandle :=
  mkHandle true 0 (String.length text).

(** The page the component lives in: the document store, the listener
    lists of the DOM elements by element id, what [oneLineEditorRef.current]
    holds, and the number of function objects created so far. *)
Record Page := mkPage {
  pageStore : Store;
  elements : gmap string (list Registration.t);
  editorHandle : option OneLineEditorHandle;
  functions : nat
}.

(** *** The DOM listener lists *)

Definition sameRegistration (a b : Registration.t) : bool :=
  String.eqb (Registration.type a) (Registration.type b)
  && Nat.eqb (Registration.listener a) (Registration.listener b)
  && Bool.eqb (Registration.capture a) (Registration.capture b).

(** [addEventListener] ignores a listener that is registered already with
    the same type and capture flag; [removeEventListener] removes the
    matching entry. *)
Definition addEventListener (r : Registration.t)
    (rs : list Registration.t) : list Registration.t :=
  if existsb (sameRegistration r) rs then rs else rs ++ [r].

Definition removeEventListener (r : Registration.t)
    (rs : list Registration.t) : list Registration.t :=
  List.filter (fun x => negb (sameRegistration r x)) rs.

(** [document.getElementById(id)?.method(...)]: nothing happens when there
    is no such element. *)
Definition onElementById (id : string)
    (method : list Registration.t -> list Registration.t)
    (document : gmap string (list Registration.t))
    : gmap string (list Registration.t) :=
  alter method id document.

Definition keydownRegistration (sendOnMetaEnter : Listener.t)
    : Registration.t :=
  Registration.mk "keydown" (Listener.identity sendOnMetaEnter) true.

(** The body of the effect (line 122) and its cleanup (line 124). *)
Definition effect (sendOnMetaEnter : Listener.t)
    (document : gmap string (list Registration.t))
    : gmap string (list Registration.t) :=
  onElementById "sidebar-request-gridlist"
    (addEventListener (keydownRegistration sendOnMetaEnter)) document.

Definition cleanup (sendOnMetaEnter : Listener.t)
    (document : gmap string (list Registration.t))
    : gmap string (list Registration.t) :=
  onElementById "sidebar-request-gridlist"
    (removeEventListener (keydownRegistration sendOnMetaEnter)) document.

(** *** [useCallback] and the dependency lists *)

Definition useCallback {D V : Type} `{EqDecision D}
    (previous : option (D * V)) (callback : V) (deps : D) : D * V :=
  match previous with
  | Some (d, v) => if decide (d = deps) then (d, v) else (deps, callback)
  | None => (deps, callback)
  end.

(** [[fetcher, organizationId, projectId, requestId, workspaceId]]
    (line 85). *)
Definition connectDeps (scope : Scope.t)
    : nat * string * string * string * string :=
  (Scope.fetcher scope,
   RouteParams.organizationId (Scope.params scope),
   RouteParams.projectId (Scope.params scope),
   RouteParams.requestId (Scope.params scope),
   RouteParams.workspaceId (Scope.params scope)).

(** [[connect, environmentId, isOpen, request, workspaceId]] (line 114). *)
Definition handleSubmitDeps (connect : ConnectCallback.t) (scope : Scope.t)
    : nat * string * bool * nat * string :=
  (ConnectCallback.identity connect,
   ActionBarProps.environmentId (Scope.props scope),
   ActionBarProps.readyState (Scope.props scope),
   Scope.requestRef scope,
   RouteParams.workspaceId (Scope.params scope)).

(** The hooks of a mounted component: the two memoized callbacks with their
    dependency lists, and the effect with the dependency of its last run
    ([[handleSubmit]], line 126) and the listener its cleanup removes. *)
Record Instance := mkInstance {
  connectHook : nat * string * string * string * string * ConnectCallback.t;
  handleSubmitHook : nat * string * bool * nat * string * SubmitCallback.t;
  effectHook : nat * Listener.t
}.

(** The first render: both callbacks are created, the layout effect
    (lines 71-73) moves the focus to the end of the URL text when the editor
    is attached, and the effect registers its listener. *)
Definition mount (scope : Scope.t) (page : Page) : Instance * Page :=
  let k := functions page in
  let connectHook :=
    useCallback None (ConnectCallback.mk k scope) (connectDeps scope) in
  let connect := snd connectHook in
  let handleSubmitHook :=
    useCallback None (SubmitCallback.mk (S k) scope connect)
      (handleSubmitDeps connect scope) in
  let handleSubmit := snd handleSubmitHook in
  let sendOnMetaEnter := Listener.mk (S (S k)) handleSubmit in
  (mkInstance connectHook handleSubmitHook
     (SubmitCallback.identity handleSubmit, sendOnMetaEnter),
   mkPage (pageStore page)
     (effect sendOnMetaEnter (elements page))
     (focusEnd (urlField (pageStore page)) <$> editorHandle page)
     (S (S (S k)))).

(** A later render: each callback is kept or replaced by its dependency
    list; when [handleSubmit] is a new function the effect is cleaned up and
    run again; the layout effect, whose list is empty, does not run. *)
Definition update (instance : Instance) (scope : Scope.t) (page : Page)
    : Instance * Page :=
  let k := functions page in
  let connectHook :=
    useCallback (Some (connectHook instance)) (ConnectCallback.mk k scope)
      (connectDeps scope) in
  let connect := snd connectHook in
  let handleSubmitHook :=
    useCallback (Some (handleSubmitHook instance))
      (SubmitCallback.mk (S k) scope connect)
      (handleSubmitDeps connect scope) in
  let handleSubmit := snd handleSubmitHook in
  if decide (fst (effectHook instance) = SubmitCallback.identity handleSubmit)
  then
    (mkInstance connectHook handleSubmitHook (effectHook instance),
     mkPage (pageStore page) (elements page) (editorHandle page)
       (S (S (S k))))
  else
    let sendOnMetaEnter := Listener.mk (S (S k)) handleSubmit in
    (mkInstance connectHook handleSubmitHook
       (SubmitCallback.identity handleSubmit, sendOnMetaEnter),
     mkPage (pageStore page)
       (effect sendOnMetaEnter
          (cleanup (snd (effectHook instance)) (elements page)))
       (editorHandle page)
       (S (S (S k)))).

(** Unmounting runs the cleanup of the effect. *)
Definition unmount (instance : Instance) (page : Page) : Page :=
  mkPage (pageStore page)
    (cleanup (snd (effectHook instance)) (elements page))
    (editorHandle page) (functions page).

(** A mount followed by the renders of [scopes], oldest first. *)
Definition lifecycle (scope : Scope.t) (scopes : list Scope.t) (page : Page)
    : Instance * Page :=
  fold_left (fun state scope' => update (fst state) scope' (snd state))
    scopes (mount scope page).

(** The scope of the latest render. *)
Definition currentScope (scope : Scope.t) (scopes : list Scope.t) : Scope.t :=
  List.last scopes scope.

(** An object keeps its properties: two renders that see the same request
    object see the same request. *)
Definition coherent (scopes : list Scope.t) : Prop :=
  forall a b,
    a ∈ scopes -> b ∈ scopes ->
    Scope.requestRef a = Scope.requestRef b ->
    ActionBarProps.request (Scope.props a)
    = ActionBarProps.request (Scope.props b).

(** No listener of the page was created after [functions page] functions. *)
Definition wellFormed (page : Page) : Prop :=
  forall id rs r,
    elements page !! id = Some rs -> r ∈ rs ->
    Registration.listener r < functions page.

(** Two scopes with the same entries in both dependency lists. *)
Definition sameDependencies (a b : Scope.t) : Prop :=
  Scope.fetcher a = Scope.fetcher b
  /\ Scope.params a = Scope.params b
  /\ Scope.requestRef a = Scope.requestRef b
  /\ ActionBarProps.environmentId (Scope.props a)
     = ActionBarProps.environmentId (Scope.props b)
  /\ ActionBarProps.readyState (Scope.props a)
     = ActionBarProps.readyState (Scope.props b).

(** The [submit] event of the form, as far as the component touches it. *)
Record FormEvent := mkFormEvent { defaultPrevented : bool }.

Section Callbacks.

Variable interpolate :
  WebSocketRequest.t -> string -> Payload.t -> InterpolationResult.
Variable buildQueryStringFromParams : list RequestParameter.t -> string.
Variable joinUrlAndQueryString : string -> string -> string.

(** Calling a [connect] function object (lines 78-85): the route
    identifiers are those of the scope it closes over. *)
Definition callConnect (callback : ConnectCallback.t)
    (connectParams : ConnectActionParams.t) : M unit :=
  connect (Scope.params (ConnectCallback.scope callback)) connectParams.

(** Calling a [handleSubmit] function object (lines 87-114): the body of
    [handleSubmit], reading [request], [environmentId], [isOpen] and
    [workspaceId] from the scope it closes over and calling the [connect] it
    closes over. *)
Definition callHandleSubmit (callback : SubmitCallback.t) : M unit :=
  let scope := SubmitCallback.scope callback in
  let request := ActionBarProps.request (Scope.props scope) in
  let isOpen := ActionBarProps.readyState (Scope.props scope) in
  if isOpen then
    call (WebSocketClose (WebSocketRequest._id request))
  else
    workspaceCookieJar <-
      getOrCreateForParentId (RouteParams.workspaceId (Scope.params scope)) ;;
    rendered <-
      tryToInterpolateRequestOrShowRenderErrorModal interpolate request
        (ActionBarProps.environmentId (Scope.props scope))
        (payloadOf request workspaceCookieJar) ;;
    match rendered with
    | Some rendered =>
        callConnect (SubmitCallback.connect callback)
          (connectParamsOf buildQueryStringFromParams joinUrlAndQueryString
             rendered)
    | None => ret tt
    end.

(** [sendOnMetaEnter] (lines 117-121). *)
Definition sendOnMetaEnter (listener : Listener.t)
    (event : KeyboardEvent.t) : M unit :=
  if KeyboardEvent.metaKey event
     && String.eqb (KeyboardEvent.key event) "Enter"
  then callHandleSubmit (Listener.handleSubmit listener)
  else ret tt.

(** [onSubmit] of the form (lines 147-150). *)
Definition onSubmit (handleSubmit : SubmitCallback.t) (event : FormEvent)
    : M FormEvent :=
  let event := mkFormEvent true in
  callHandleSubmit handleSubmit ;;;
  ret event.

(** The table given to [createKeybindingsHandler] (lines 156-158). *)
Definition keybindings (handleSubmit : SubmitCallback.t)
    : list (string * M unit) :=
  [ ("Enter", callHandleSubmit handleSubmit) ].

(** A handler that acts on the page. *)
Definition onPage (action : M unit) (page : Page) : Page * list Call :=
  let '(_, s, calls) := action (pageStore page) in
  (mkPage s (elements page) (editorHandle page) (functions page), calls).

(** The table given to [useDocBodyKeyboardShortcuts] (lines 128-133). *)
Definition shortcuts (handleSubmit : SubmitCallback.t)
    : list (string * (Page -> Page * list Call)) :=
  [ ("request_send", onPage (callHandleSubmit handleSubmit));
    ("request_focusUrl",
     fun page =>
       (mkPage (pageStore page) (elements page)
          (selectAll (urlField (pageStore page)) <$> editorHandle page)
          (functions page),
        [])) ].

End Callbacks.

(** The handler a table binds to a name. *)
Definition bound {A : Type} (name : string) (table : list (string * A))
    : option A :=
  snd <$> List.find (fun entry => String.eqb (fst entry) name) table.

(** ** A sample page and sample renders *)
Module SampleHooks.

(** The first render, on a closed connection. *)
Definition closed : Scope.t :=
  Scope.mk (Sample.props false) 1 Sample.params 7.

(** A later render of the same request object, the connection now open. *)
Definition opened : Scope.t :=
  Scope.mk (Sample.props true) 1 Sample.params 7.

(** A render that differs from [opened] in [defaultValue] only. *)
Definition retyped : Scope.t :=
  Scope.mk (ActionBarProps.mk Sample.request "env_1" "wss://edited/chat" true)
    1 Sample.params 7.

(** A page with the sidebar list, which has a listener of its own, and
    with the editor attached. *)
Definition page : Page :=
  mkPage Sample.store
    {[ "sidebar-request-gridlist" := [Registration.mk "keydown" 0 false] ]}
    (Some (mkHandle false 0 0)) 1.

End SampleHooks.

(** ** [handleSubmit] on the JavaScript heap

    The owner of the component keeps the request as an object and hands the
    component a reference to it; the headers, the authentication and the
    parameters of the request are objects of their own, and so is every
    parameter.  The embedding above passes the request as a value, where a
    write to the owner's object cannot be said.  This module embeds
    [handleSubmit] a second time, over a heap of mutable objects: a property
    is read through a reference, an object literal and the result of
    [filter] are new objects, and a callee gets the references themselves.
    An [await] that rejects, or a property read from [undefined], ends the
    run with [Throw]. *)
Module JsHeap.

Inductive Value : Type :=
  | Undefined
  | Boolean (b : bool)
  | Text (s : string)
  | Reference (address : nat).

Inductive Object : Type :=
  | Plain (properties : gmap string Value)
  | Array (items : list Value).

Inductive Completion (A : Type) : Type :=
  | Normal (a : A)
  | Throw.

Arguments Normal {A} a.
Arguments Throw {A}.

(** A computation reads and writes the heap and completes normally or
    throws. *)
Definition Js (A : Type) : Type :=
  gmap nat Object -> Completion A * gmap nat Object.

Definition ret {A : Type} (a : A) : Js A := fun h => (Normal a, h).

Definition bind {A B : Type} (m : Js A) (k : A -> Js B) : Js B :=
  fun h =>
    match m h with
    | (Normal a, h1) => k a h1
    | (Throw, h1) => (Throw, h1)
    end.

Declare Scope js_scope.
Delimit Scope js_scope with js.
Notation "x <- m ;; k" := (bind m (fun x => k))
  (at level 100, m at next level, right associativity) : js_scope.
Local Open Scope js_scope.

(** The heap a computation leaves. *)
Definition heapAfter {A : Type} (m : Js A) (h : gmap nat Object)
    : gmap nat Object :=
  snd (m h).

(** An object literal, or any other new object: it gets an address that
    no object of the heap has. *)
Definition allocate (o : Object) : Js Value :=
  fun h =>
    let address := fresh (dom h) in
    (Normal (Reference address), <[address := o]> h).

(** [value.name] as a pure function of the heap.  Reading from [undefined]
    throws; a primitive or an array has none of the properties read here; a
    plain object gives the property, or [undefined] when it has none. *)
Definition readProperty (h : gmap nat Object) (value : Value)
    (name : string) : Completion Value :=
  match value with
  | Undefined => Throw
  | Boolean _ | Text _ => Normal Undefined
  | Reference address =>
      match h !! address with
      | Some (Plain properties) =>
          Normal (default Undefined (properties !! name))
      | Some (Array _) => Normal Undefined
      | None => Throw
      end
  end.

Definition getProperty (value : Value) (name : string) : Js Value :=
  fun h => (readProperty h value name, h).

(** [value.name = x]: the write that [handleSubmit] never makes. *)
Definition setProperty (value : Value) (name : string) (x : Value)
    : Js unit :=
  fun h =>
    match value with
    | Reference address =>
        match h !! address with
        | Some (Plain properties) =>
            (Normal tt, <[address := Plain (<[name := x]> properties)]> h)
        | _ => (Throw, h)
        end
    | _ => (Throw, h)
    end.

(** JavaScript truthiness, as [!p.disabled] and [rendered && ...] use it. *)
Definition truthy (value : Value) : bool :=
  match value with
  | Undefined => false
  | Boolean b => b
  | Text s => negb (String.eqb s "")
  | Reference _ => true
  end.

(** [array.filter(callback)]: the callback is called on every item in
    order, and the items it accepts are put in a new array. *)
Fixpoint filterItems (callback : Value -> Js bool) (items : list Value)
    : Js (list Value) :=
  match items with
  | [] => ret []
  | item :: rest =>
      keep <- callback item ;;
      kept <- filterItems callback rest ;;
      ret (if keep then item :: kept else kept)
  end.

Definition filter (callback : Value -> Js bool) (array : Value) : Js Value :=
  fun h =>
    match array with
    | Reference address =>
        match h !! address with
        | Some (Array items) =>
            (kept <- filterItems callback items ;; allocate (Array kept)) h
        | _ => (Throw, h)
        end
    | _ => (Throw, h)
    end.

(** A computation preserves the heap when every object that was there is
    there afterwards, unchanged. *)
Definition preserves {A : Type} (m : Js A) : Prop :=
  forall h address o,
    h !! address = Some o -> heapAfter m h !! address = Some o.

Section Submit.

(** The collaborators: each is called with the references it is given and
    may read the heap, allocate, and throw.
    [fetcherSubmit body action] is
    [fetcher.submit(JSON.stringify(body), { action, method, encType })]. *)
Variable webSocketClose : Value -> Js unit.
Variable getOrCreateForParentId : Value -> Js Value.
Variable tryToInterpolateRequestOrShowRenderErrorModal : Value -> Js Value.
Variable buildQueryStringFromParams : Value -> Js Value.
Variable joinUrlAndQueryString : Value -> Value -> Js Value.
Variable fetcherSubmit : Value -> string -> Js unit.

(** [connect] (lines 78-85). *)
Definition connect (params : RouteParams.t) (connectParams : Value)
    : Js unit :=
  fetcherSubmit connectParams (connectAction params).

(** [handleSubmit] (lines 87-114). *)
Definition handleSubmit (params : RouteParams.t)
    (request environmentId : Value) (isOpen : bool) : Js unit :=
  if isOpen then
    requestId <- getProperty request "_id" ;;
    argument <- allocate (Plain {[ "requestId" := requestId ]}) ;;
    webSocketClose argument
  else
    workspaceCookieJar <-
      getOrCreateForParentId (Text (RouteParams.workspaceId params)) ;;
    url <- getProperty request "url" ;;
    headers <- getProperty request "headers" ;;
    authentication <- getProperty request "authentication" ;;
    parameters <- getProperty request "parameters" ;;
    enabledParameters <-
      filter
        (fun p =>
           disabled <- getProperty p "disabled" ;;
           ret (negb (truthy disabled)))
        parameters ;;
    payload <-
      allocate
        (Plain
           {[ "url" := url;
              "headers" := headers;
              "authentication" := authentication;
              "parameters" := enabledParameters;
              "workspaceCookieJar" := workspaceCookieJar ]}) ;;
    argument <-
      allocate
        (Plain
           {[ "request" := request;
              "environmentId" := environmentId;
              "payload" := payload ]}) ;;
    rendered <- tryToInterpolateRequestOrShowRenderErrorModal argument ;;
    if truthy rendered then
      renderedUrl <- getProperty rendered "url" ;;
      renderedParameters <- getProperty rendered "parameters" ;;
      queryString <- buildQueryStringFromParams renderedParameters ;;
      connectUrl <- joinUrlAndQueryString renderedUrl queryString ;;
      renderedHeaders <- getProperty rendered "headers" ;;
      renderedAuthentication <- getProperty rendered "authentication" ;;
      cookieJar <- getProperty rendered "workspaceCookieJar" ;;
      suppressUserAgent <- getProperty rendered "suppressUserAgent" ;;
      connectParams <-
        allocate
          (Plain
             {[ "url" := connectUrl;
                "headers" := renderedHeaders;
                "authentication" := renderedAuthentication;
                "cookieJar" := cookieJar;
                "suppressUserAgent" := suppressUserAgent ]}) ;;
      connect params connectParams
    else ret tt.

End Submit.

End JsHeap.

(** A heap with the request of the spec's example and collaborators that
    only read and allocate: interpolation gives the payload back. *)
Module SampleHeap.

Definition heap : gmap nat JsHeap.Object :=
  {[ 1 :=
       JsHeap.Plain
         {[ "_id" := JsHeap.Text "ws-req_1";
            "url" := JsHeap.Text "wss://{{host}}/chat";
            "headers" := JsHeap.Reference 2;
            "authentication" := JsHeap.Reference 3;
            "parameters" := JsHeap.Reference 4;
            "suppressUserAgent" := JsHeap.Boolean true ]};
     2 := JsHeap.Array [];
     3 := JsHeap.Plain ∅;
     4 := JsHeap.Array [JsHeap.Reference 5; JsHeap.Reference 6];
     5 :=
       JsHeap.Plain
         {[ "key" := JsHeap.Text "id";
            "value" := JsHeap.Text "1";
            "disabled" := JsHeap.Boolean false ]};
     6 :=
       JsHeap.Plain
         {[ "key" := JsHeap.Text "dbg";
            "value" := JsHeap.Text "1";
            "disabled" := JsHeap.Boolean true ]} ]}.

Definition webSocketClose (_ : JsHeap.Value) : JsHeap.Js unit :=
  JsHeap.ret tt.

Definition getOrCreateForParentId (parentId : JsHeap.Value)
    : JsHeap.Js JsHeap.Value :=
  JsHeap.allocate (JsHeap.Plain {[ "parentId" := parentId ]}).

Definition tryToInterpolate (argument : JsHeap.Value)
    : JsHeap.Js JsHeap.Value :=
  JsHeap.getProperty argument "payload".

Definition buildQueryStringFromParams (_ : JsHeap.Value)
    : JsHeap.Js JsHeap.Value :=
  JsHeap.ret (JsHeap.Text "id=1").

Definition joinUrlAndQueryString (url _ : JsHeap.Value)
    : JsHeap.Js JsHeap.Value :=
  JsHeap.ret url.

Definition fetcherSubmit (_ : JsHeap.Value) (_ : string) : JsHeap.Js unit :=
  JsHeap.ret tt.

Definition submit (isOpen : bool) : JsHeap.Js unit :=
  JsHeap.handleSubmit webSocketClose getOrCreateForParentId tryToInterpolate
    buildQueryStringFromParams joinUrlAndQueryString fetcherSubmit
    Sample.params (JsHeap.Reference 1) (JsHeap.Text "env_1") isOpen.

End SampleHeap.

(** What holds of the hooks after every render: [history] lists the scopes
    rendered so far, [scope] is the latest, [page0] the page before the
    mount. *)
Record HooksInvariant (page0 : Page) (history : list Scope.t)
    (scope : Scope.t) (instance : Instance) (page : Page) : Prop := {
  connect_deps : fst (connectHook instance) = connectDeps scope;
  connect_scope :
    connectDeps (ConnectCallback.scope (snd (connectHook instance)))
    = connectDeps scope;
  connect_identity :
    ConnectCallback.identity (snd (connectHook instance)) < functions page;
  handleSubmit_deps :
    fst (handleSubmitHook instance)
    = handleSubmitDeps (snd (connectHook instance)) scope;
  handleSubmit_scope :
    handleSubmitDeps (snd (connectHook instance))
      (SubmitCallback.scope (snd (handleSubmitHook instance)))
    = handleSubmitDeps (snd (connectHook instance)) scope;
  handleSubmit_connect :
    SubmitCallback.connect (snd (handleSubmitHook instance))
    = snd (connectHook instance);
  handleSubmit_identity :
    SubmitCallback.identity (snd (handleSubmitHook instance)) < functions page;
  handleSubmit_history :
    SubmitCallback.scope (snd (handleSubmitHook instance)) ∈ history;
  scope_history : scope ∈ history;
  effect_deps :
    fst (effectHook instance)
    = SubmitCallback.identity (snd (handleSubmitHook instance));
  effect_handleSubmit :
    Listener.handleSubmit (snd (effectHook instance))
    = snd (handleSubmitHook instance);
  effect_identity :
    functions page0 <= Listener.identity (snd (effectHook instance))
    /\ Listener.identity (snd (effectHook instance)) < functions page;
  page_elements :
    wellFormed page0 ->
    elements page
    = onElementById "sidebar-request-gridlist"
        (fun rs => rs ++ [keydownRegistration (snd (effectHook instance))])
        (elements page0);
  page_store : pageStore page = pageStore page0;
  page_editor :
    editorHandle page
    = focusEnd (urlField (pageStore page0)) <$> editorHandle page0
}.

(** ** Facts about one run of [handleSubmit] *)

Section Runs.

Variable interpolate :
  WebSocketRequest.t -> string -> Payload.t -> InterpolationResult.
Variable buildQueryStringFromParams : list RequestParameter.t -> string.
Variable joinUrlAndQueryString : string -> string -> string.

Local Abbreviation submit :=
  (handleSubmit interpolate buildQueryStringFromParams joinUrlAndQueryString).
Local Abbreviation connectParams :=
  (connectParamsOf buildQueryStringFromParams joinUrlAndQueryString).

Lemma getOrCreateForParentId_calls parentId s :
  callsOf (getOrCreateForParentId parentId s) = [GetOrCreateForParentId parentId].
Proof.
  unfold getOrCreateForParentId, callsOf.
  destruct (cookieJars s !! parentId); reflexivity.
Qed.

Lemma getOrCreateForParentId_frame parentId s :
  requests (storeOf (getOrCreateForParentId parentId s)) = requests s
  /\ urlField (storeOf (getOrCreateForParentId parentId s)) = urlField s.
Proof.
  unfold getOrCreateForParentId, storeOf.
  destruct (cookieJars s !! parentId); split; reflexivity.
Qed.

Lemma getOrCreateForParentId_stored parentId s :
  cookieJars (storeOf (getOrCreateForParentId parentId s)) !! parentId
  = Some (result (getOrCreateForParentId parentId s)).
Proof.
  unfold getOrCreateForParentId, storeOf, result.
  destruct (cookieJars s !! parentId) eqn:E; simpl.
  - exact E.
  - apply lookup_insert_eq.
Qed.

(** Submitting on an open connection. *)
Lemma handleSubmit_open params props s :
  ActionBarProps.readyState props = true ->
  submit params props s
  = (tt, s, [WebSocketClose (WebSocketRequest._id (ActionBarProps.request props))]).
Proof. intros H. unfold handleSubmit. rewrite H. reflexivity. Qed.

(** Submitting on a closed connection: the calls, in order. *)
Lemma handleSubmit_closed params props s :
  ActionBarProps.readyState props = false ->
  submit params props s
  = (tt, storeAfterFetch params s,
     GetOrCreateForParentId (RouteParams.workspaceId params)
     :: Interpolate (ActionBarProps.request props)
          (ActionBarProps.environmentId props) (submittedPayload params props s)
     :: match interpolated interpolate params props s with
        | Resolved rendered =>
            [FetcherSubmit (connectParams rendered) (connectAction params)
               "post" "application/json"]
        | RenderErrorReport error =>
            [ShowRenderErrorModal (ActionBarProps.request props) error]
        end).
Proof.
  intros H.
  unfold handleSubmit, interpolated, submittedPayload, fetchedJar, storeAfterFetch.
  rewrite H. unfold bind at 1.
  pose proof (getOrCreateForParentId_calls (RouteParams.workspaceId params) s) as Hc.
  destruct (getOrCreateForParentId (RouteParams.workspaceId params) s)
    as [[jar s1] t1].
  unfold callsOf in Hc. simpl in Hc. subst t1.
  unfold result, storeOf. simpl fst. simpl snd.
  unfold tryToInterpolateRequestOrShowRenderErrorModal, bind, call, ret, connect.
  destruct (interpolate _ _ _); reflexivity.
Qed.

(** What a run on a closed connection dispatches, by kind of call. *)
Lemma closed_connectCommands params props s :
  ActionBarProps.readyState props = false ->
  connectCommands (callsOf (submit params props s))
  = match interpolated interpolate params props s with
    | Resolved rendered => [connectParams rendered]
    | RenderErrorReport _ => []
    end.
Proof.
  intros H. rewrite (handleSubmit_closed _ _ _ H). unfold callsOf. simpl.
  destruct (interpolated interpolate params props s); reflexivity.
Qed.

Lemma closed_closeCommands params props s :
  ActionBarProps.readyState props = false ->
  closeCommands (callsOf (submit params props s)) = [].
Proof.
  intros H. rewrite (handleSubmit_closed _ _ _ H). unfold callsOf. simpl.
  destruct (interpolated interpolate params props s); reflexivity.
Qed.

Lemma closed_errorReports params props s :
  ActionBarProps.readyState props = false ->
  errorReports (callsOf (submit params props s))
  = match interpolated interpolate params props s with
    | Resolved _ => []
    | RenderErrorReport error => [error]
    end.
Proof.
  intros H. rewrite (handleSubmit_closed _ _ _ H). unfold callsOf. simpl.
  destruct (interpolated interpolate params props s); reflexivity.
Qed.

Lemma closed_interpolations params props s :
  ActionBarProps.readyState props = false ->
  interpolations (callsOf (submit params props s))
  = [submittedPayload params props s].
Proof.
  intros H. rewrite (handleSubmit_closed _ _ _ H). unfold callsOf. simpl.
  destruct (interpolated interpolate params props s); reflexivity.
Qed.

Lemma closed_store params props s :
  ActionBarProps.readyState props = false ->
  storeOf (submit params props s) = storeAfterFetch params s.
Proof. intros H. rewrite (handleSubmit_closed _ _ _ H). reflexivity. Qed.

(** A dispatched connect command comes from a closed connection and a
    resolved interpolation. *)
Lemma dispatched_connect params props s c :
  c ∈ connectCommands (callsOf (submit params props s)) ->
  ActionBarProps.readyState props = false
  /\ exists rendered,
       interpolated interpolate params props s = Resolved rendered
       /\ c = connectParams rendered.
Proof.
  destruct (ActionBarProps.readyState props) eqn:Hrs.
  - rewrite (handleSubmit_open _ _ _ Hrs). intros Hin. inversion Hin.
  - rewrite (closed_connectCommands _ _ _ Hrs).
    destruct (interpolated interpolate params props s) as [rendered|error]; intros Hin.
    + apply list_elem_of_singleton in Hin. eauto.
    + inversion Hin.
Qed.

End Runs.

Create Rewrite HintDb composer.
#[global] Hint Rewrite closed_connectCommands closed_closeCommands
  closed_errorReports closed_interpolations closed_store
  using assumption : composer.

(** ** The connection composer contract *)

(** C1.  Submitting while [readyState] is false, when interpolation of the
    payload succeeds, makes three calls: the fetch of the workspace's cookie
    jar, the interpolation of the payload that holds the request's URL,
    headers and authentication, its non-disabled parameters and the fetched
    jar, and one connect command.  There is exactly one connect command and
    no close command; the URL of the command is [joinUrlAndQueryString] of
    the interpolated URL and of [buildQueryStringFromParams] of the
    interpolated parameters, and its other fields are those of the
    interpolation output.  On the spec's example (host resolved to
    example.com, parameter [id] enabled, [dbg] disabled) the URL is
    [wss://example.com/chat?id=1]. *)
Theorem submit_closed_resolved_connects_once :
  (forall interpolate buildQueryStringFromParams joinUrlAndQueryString
          params props s rendered,
     let request := ActionBarProps.request props in
     let payload :=
       {| Payload.url := WebSocketRequest.url request;
          Payload.headers := WebSocketRequest.headers request;
          Payload.authentication := WebSocketRequest.authentication request;
          Payload.parameters :=
            List.filter (fun p => negb (RequestParameter.disabled p))
              (WebSocketRequest.parameters request);
          Payload.workspaceCookieJar := fetchedJar params s |} in
     let command :=
       {| ConnectActionParams.url :=
            joinUrlAndQueryString (Rendered.url rendered)
              (buildQueryStringFromParams (Rendered.parameters rendered));
          ConnectActionParams.headers := Rendered.headers rendered;
          ConnectActionParams.authentication :=
            Rendered.authentication rendered;
          ConnectActionParams.cookieJar :=
            Rendered.workspaceCookieJar rendered;
          ConnectActionParams.suppressUserAgent :=
            Rendered.suppressUserAgent rendered |} in
     ActionBarProps.readyState props = false ->
     interpolate request (ActionBarProps.environmentId props) payload
     = Resolved rendered ->
     let calls :=
       callsOf (handleSubmit interpolate buildQueryStringFromParams
                  joinUrlAndQueryString params props s) in
     calls
     = [ GetOrCreateForParentId (RouteParams.workspaceId params);
         Interpolate request (ActionBarProps.environmentId props) payload;
         FetcherSubmit command (connectAction params)
           "post" "application/json" ]
     /\ connectCommands calls = [command]
     /\ connectCommands calls
        = [connectParamsOf buildQueryStringFromParams joinUrlAndQueryString
             rendered]
     /\ closeCommands calls = []
     /\ List.map ConnectActionParams.url (connectCommands calls)
        = [joinUrlAndQueryString (Rendered.url rendered)
             (buildQueryStringFromParams (Rendered.parameters rendered))]
     /\ Payload.parameters (submittedPayload params props s)
        = List.filter (fun p => negb (RequestParameter.disabled p))
            (WebSocketRequest.parameters (ActionBarProps.request props)))
  /\ (forall params s,
        cookieJars s !! RouteParams.workspaceId params = None ->
        List.map ConnectActionParams.url
          (connectCommands
             (callsOf
                (handleSubmit (Collaborators.interpolate Sample.environments)
                   Collaborators.buildQueryStringFromParams
                   Collaborators.joinUrlAndQueryString
                   params (Sample.props false) s)))
        = ["wss://example.com/chat?id=1"]).
Proof.
  split.
  - intros interpolate build join params props s rendered request payload
           command Hclosed Hres calls.
    assert (interpolated interpolate params props s = Resolved rendered)
      as Hres' by exact Hres.
    subst calls. split.
    + rewrite (handleSubmit_closed _ _ _ _ _ _ Hclosed). unfold callsOf.
      simpl. rewrite Hres'. reflexivity.
    + autorewrite with composer. rewrite Hres'.
      repeat split; reflexivity.
  - intros params s Hnone.
    rewrite closed_connectCommands by reflexivity.
    unfold interpolated, submittedPayload, fetchedJar, getOrCreateForParentId.
    rewrite Hnone. vm_compute. reflexivity.
Qed.

(** C2.  Submitting while [readyState] is true makes exactly one call, the
    close command addressed by the request's identifier: there is one close
    command, no connect command and no interpolation, whatever the request
    holds. *)
Theorem submit_open_closes_once :
  forall interpolate buildQueryStringFromParams joinUrlAndQueryString
         params props s,
    ActionBarProps.readyState props = true ->
    let calls :=
      callsOf (handleSubmit interpolate buildQueryStringFromParams
                 joinUrlAndQueryString params props s) in
    calls = [WebSocketClose (WebSocketRequest._id (ActionBarProps.request props))]
    /\ closeCommands calls
       = [WebSocketRequest._id (ActionBarProps.request props)]
    /\ connectCommands calls = []
    /\ interpolations calls = [].
Proof.
  intros interpolate build join params props s Hopen calls. subst calls.
  rewrite (handleSubmit_open _ _ _ _ _ _ Hopen).
  repeat split; reflexivity.
Qed.

(** C3.  Submitting while [readyState] is false, when interpolation fails,
    dispatches neither a connect nor a close command, produces exactly one
    error report (the render error), and leaves the text of the URL field as
    it was. *)
Theorem submit_closed_failed_reports_once :
  forall interpolate buildQueryStringFromParams joinUrlAndQueryString
         params props s error,
    ActionBarProps.readyState props = false ->
    interpolated interpolate params props s = RenderErrorReport error ->
    let run :=
      handleSubmit interpolate buildQueryStringFromParams
        joinUrlAndQueryString params props s in
    connectCommands (callsOf run) = []
    /\ closeCommands (callsOf run) = []
    /\ commandCount (callsOf run) = 0
    /\ errorReports (callsOf run) = [error]
    /\ urlField (storeOf run) = urlField s.
Proof.
  intros interpolate build join params props s error Hclosed Hfail run.
  subst run. unfold commandCount. autorewrite with composer. rewrite Hfail.
  repeat split; try reflexivity.
  apply getOrCreateForParentId_frame.
Qed.

Lemma payload_parameters_enabled request jar p :
  p ∈ Payload.parameters (payloadOf request jar)
  <-> p ∈ WebSocketRequest.parameters request
      /\ RequestParameter.disabled p = false.
Proof.
  unfold payloadOf. simpl.
  rewrite list_elem_of_In, filter_In, <- list_elem_of_In.
  rewrite negb_true_iff. reflexivity.
Qed.

(** C4, as the code has it.  On a closed connection the one payload that
    reaches interpolation carries exactly the request's parameters whose
    disabled flag is unset, in order, so a parameter with the flag set is
    not in it; the query string of a dispatched connect command is built
    from the interpolation output for that payload; and when interpolation
    does not read the parameters of its request argument, the connect
    commands depend on the request's parameter list only through its
    non-disabled entries. *)
Theorem only_enabled_parameters_reach_the_query_string :
  forall interpolate buildQueryStringFromParams joinUrlAndQueryString
         params props s,
    ActionBarProps.readyState props = false ->
    let submit :=
      handleSubmit interpolate buildQueryStringFromParams
        joinUrlAndQueryString params in
    let payload := submittedPayload params props s in
    interpolations (callsOf (submit props s)) = [payload]
    /\ Payload.parameters payload
       = List.filter enabled
           (WebSocketRequest.parameters (ActionBarProps.request props))
    /\ (forall p,
          p ∈ Payload.parameters payload
          <-> p ∈ WebSocketRequest.parameters (ActionBarProps.request props)
              /\ RequestParameter.disabled p = false)
    /\ (forall c,
          c ∈ connectCommands (callsOf (submit props s)) ->
          exists rendered,
            interpolate (ActionBarProps.request props)
              (ActionBarProps.environmentId props) payload
            = Resolved rendered
            /\ ConnectActionParams.url c
               = joinUrlAndQueryString (Rendered.url rendered)
                   (buildQueryStringFromParams (Rendered.parameters rendered)))
    /\ (forall parameters,
          List.filter enabled parameters
          = List.filter enabled
              (WebSocketRequest.parameters (ActionBarProps.request props)) ->
          (forall request ps environmentId p,
             interpolate (withParameters ps request) environmentId p
             = interpolate request environmentId p) ->
          connectCommands
            (callsOf
               (submit
                  (withRequest
                     (withParameters parameters (ActionBarProps.request props))
                     props) s))
          = connectCommands (callsOf (submit props s))).
Proof.
  intros interpolate build join params props s Hclosed submit payload.
  subst submit payload.
  split; [ apply closed_interpolations; assumption | ].
  split; [ reflexivity | ].
  split; [ intros p; apply payload_parameters_enabled | ].
  split.
  - intros c Hin. apply dispatched_connect in Hin as [_ [rendered [Hres ->]]].
    exists rendered. split; [ exact Hres | reflexivity ].
  - intros parameters Hfilter Hpure.
    rewrite !closed_connectCommands by assumption.
    unfold interpolated, submittedPayload, payloadOf. simpl.
    rewrite Hpure. fold enabled. rewrite Hfilter. reflexivity.
Qed.

(** C5, as the code has it.  One invocation dispatches at most one command.
    Which one is chosen by [readyState]: when it is true, one close command
    for the request's identifier and no connect; when it is false, no close
    command, and one connect command if interpolation resolves, none if it
    reports a render error. *)
Theorem submit_dispatches_at_most_one_command :
  forall interpolate buildQueryStringFromParams joinUrlAndQueryString
         params props s,
    let calls :=
      callsOf (handleSubmit interpolate buildQueryStringFromParams
                 joinUrlAndQueryString params props s) in
    commandCount calls <= 1
    /\ if ActionBarProps.readyState props
       then closeCommands calls
            = [WebSocketRequest._id (ActionBarProps.request props)]
            /\ connectCommands calls = []
       else closeCommands calls = []
            /\ connectCommands calls
               = match interpolated interpolate params props s with
                 | Resolved rendered =>
                     [connectParamsOf buildQueryStringFromParams
                        joinUrlAndQueryString rendered]
                 | RenderErrorReport _ => []
                 end.
Proof.
  intros interpolate build join params props s calls. subst calls.
  unfold commandCount.
  destruct (ActionBarProps.readyState props) eqn:Hrs.
  - rewrite (handleSubmit_open _ _ _ _ _ _ Hrs). simpl. auto.
  - autorewrite with composer.
    destruct (interpolated interpolate params props s); simpl; auto.
Qed.

(** C6, as the code has it.  The jar returned by [getOrCreateForParentId]
    for the workspace goes unmodified into the interpolation payload; the
    [cookieJar] of a dispatched connect command is the [workspaceCookieJar]
    of the interpolation output for that payload; and the jar kept in the
    store for the workspace is still the fetched one. *)
Theorem connect_cookieJar_is_the_rendered_jar :
  forall interpolate buildQueryStringFromParams joinUrlAndQueryString
         params props s c,
    let run :=
      handleSubmit interpolate buildQueryStringFromParams
        joinUrlAndQueryString params props s in
    c ∈ connectCommands (callsOf run) ->
    Payload.workspaceCookieJar (submittedPayload params props s)
    = fetchedJar params s
    /\ (exists rendered,
          interpolated interpolate params props s = Resolved rendered
          /\ ConnectActionParams.cookieJar c
             = Rendered.workspaceCookieJar rendered)
    /\ cookieJars (storeOf run) !! RouteParams.workspaceId params
       = Some (fetchedJar params s).
Proof.
  intros interpolate build join params props s c run Hin. subst run.
  apply dispatched_connect in Hin as [Hclosed [rendered [Hres ->]]].
  split; [ reflexivity | ].
  split; [ exists rendered; split; [ exact Hres | reflexivity ] | ].
  rewrite closed_store by assumption.
  apply getOrCreateForParentId_stored.
Qed.

(** C7.  An edit of the URL field makes no interpolation and dispatches no
    connect or close command.  The [onChange] prop of the editor is the
    owner's callback itself; an edit makes exactly one call, the owner's
    [onChange] with the raw text, which is also the text the field then
    holds. *)
Theorem url_edit_only_forwards_raw_text :
  forall interpolate buildQueryStringFromParams joinUrlAndQueryString
         params props newText s,
    let editor :=
      urlBar (WebSocketActionBar interpolate buildQueryStringFromParams
                joinUrlAndQueryString params props) in
    let run := editUrl editor newText s in
    interpolations (callsOf run) = []
    /\ commandCount (callsOf run) = 0
    /\ OneLineEditorProps.onChange editor newText = call (OnChange newText)
    /\ callsOf run = [OnChange newText]
    /\ urlField (storeOf run) = newText.
Proof.
  intros interpolate build join params props newText s editor run.
  subst run editor. unfold editUrl, WebSocketActionBar. simpl.
  repeat split; reflexivity.
Qed.

(** C10.  The [suppressUserAgent] of a dispatched connect command is the
    [suppressUserAgent] of the interpolation output, and the payload given
    to interpolation does not carry the request's flag: it is the same
    payload whatever the flag of the request is. *)
Theorem connect_suppressUserAgent_is_the_rendered_one :
  forall interpolate buildQueryStringFromParams joinUrlAndQueryString
         params props s c,
    c ∈ connectCommands
          (callsOf (handleSubmit interpolate buildQueryStringFromParams
                      joinUrlAndQueryString params props s)) ->
    (exists rendered,
       interpolated interpolate params props s = Resolved rendered
       /\ ConnectActionParams.suppressUserAgent c
          = Rendered.suppressUserAgent rendered)
    /\ forall flag,
         payloadOf (withSuppressUserAgent flag (ActionBarProps.request props))
           (fetchedJar params s)
         = submittedPayload params props s.
Proof.
  intros interpolate build join params props s c Hin.
  apply dispatched_connect in Hin as [_ [rendered [Hres ->]]].
  split; [ exists rendered; split; [ exact Hres | reflexivity ] | ].
  intros flag. reflexivity.
Qed.

(** ** The contract on the sample requests *)

(** C1 on the spec's example with an empty store: the one connect command
    that is dispatched, with its URL. *)
Lemma submit_closed_resolved_connects_once_witness :
  connectCommands (callsOf (Sample.submit (Sample.props false) Sample.store))
  = [ {| ConnectActionParams.url := "wss://example.com/chat?id=1";
         ConnectActionParams.headers := [];
         ConnectActionParams.authentication := [];
         ConnectActionParams.cookieJar := CookieJar.mk "wrk_1" [];
         ConnectActionParams.suppressUserAgent := None |} ]
  /\ closeCommands (callsOf (Sample.submit (Sample.props false) Sample.store))
     = [].
Proof.
  pose proof
    (proj1 submit_closed_resolved_connects_once
       (Collaborators.interpolate Sample.environments)
       Collaborators.buildQueryStringFromParams
       Collaborators.joinUrlAndQueryString
       Sample.params (Sample.props false) Sample.store
       {| Rendered.url := "wss://example.com/chat";
          Rendered.headers := [];
          Rendered.authentication := [];
          Rendered.parameters := [RequestParameter.mk "id" "1" false];
          Rendered.workspaceCookieJar := CookieJar.mk "wrk_1" [];
          Rendered.suppressUserAgent := None |}) as H.
  destruct H as (_ & Hconnect & _ & Hclose & _).
  - reflexivity.
  - vm_compute. reflexivity.
  - split; [ exact Hconnect | exact Hclose ].
Defined.

(** C2 on the spec's example, submitted while the connection is open. *)
Lemma submit_open_closes_once_witness :
  callsOf (Sample.submit (Sample.props true) Sample.store)
  = [WebSocketClose "ws-req_1"].
Proof.
  apply (submit_open_closes_once
           (Collaborators.interpolate Sample.environments)
           Collaborators.buildQueryStringFromParams
           Collaborators.joinUrlAndQueryString
           Sample.params (Sample.props true) Sample.store).
  reflexivity.
Defined.

(** C3 on the spec's example under an environment without [host]. *)
Lemma submit_closed_failed_reports_once_witness :
  commandCount (callsOf (Sample.submit Sample.propsNoHost Sample.store)) = 0
  /\ errorReports (callsOf (Sample.submit Sample.propsNoHost Sample.store))
     = [UnresolvedVariable "host"]
  /\ urlField (storeOf (Sample.submit Sample.propsNoHost Sample.store))
     = "wss://{{host}}/chat".
Proof.
  pose proof
    (submit_closed_failed_reports_once
       (Collaborators.interpolate Sample.environments)
       Collaborators.buildQueryStringFromParams
       Collaborators.joinUrlAndQueryString
       Sample.params Sample.propsNoHost Sample.store
       (UnresolvedVariable "host")) as H.
  destruct H as (_ & _ & Hcount & Hreports & Hfield).
  - reflexivity.
  - vm_compute. reflexivity.
  - split; [ exact Hcount | split; [ exact Hreports | exact Hfield ] ].
Defined.

(** C4 as stated fails: the disabled parameter [id=2] shares its key with
    the enabled parameter [id=1], and the query string of the connect
    command, [id=1], contains that key. *)
Lemma disabled_key_occurs_in_query_string :
  RequestParameter.mk "id" "2" true
    ∈ WebSocketRequest.parameters (ActionBarProps.request Sample.propsTwoIds)
  /\ RequestParameter.disabled (RequestParameter.mk "id" "2" true) = true
  /\ interpolated (Collaborators.interpolate Sample.environments)
       Sample.params Sample.propsTwoIds Sample.store
     = Resolved
         {| Rendered.url := "wss://example.com/chat";
            Rendered.headers := [];
            Rendered.authentication := [];
            Rendered.parameters := [RequestParameter.mk "id" "1" false];
            Rendered.workspaceCookieJar := CookieJar.mk "wrk_1" [];
            Rendered.suppressUserAgent := None |}
  /\ Collaborators.buildQueryStringFromParams
       [RequestParameter.mk "id" "1" false] = "id=1"
  /\ List.map ConnectActionParams.url
       (connectCommands
          (callsOf (Sample.submit Sample.propsTwoIds Sample.store)))
     = ["wss://example.com/chat?id=1"]
  /\ String.index 0 (RequestParameter.key (RequestParameter.mk "id" "2" true))
       "id=1" = Some 0.
Proof.
  split; [ apply list_elem_of_In; simpl; auto | ].
  repeat split; vm_compute; reflexivity.
Qed.

(** C4 as amended, on that request: the payload holds the enabled [id=1]
    only, and a request without the disabled parameter dispatches the same
    connect command. *)
Lemma only_enabled_parameters_reach_the_query_string_witness :
  interpolations (callsOf (Sample.submit Sample.propsTwoIds Sample.store))
  = [submittedPayload Sample.params Sample.propsTwoIds Sample.store]
  /\ Payload.parameters
       (submittedPayload Sample.params Sample.propsTwoIds Sample.store)
     = [RequestParameter.mk "id" "1" false]
  /\ connectCommands
       (callsOf
          (Sample.submit
             (withRequest
                (withParameters [RequestParameter.mk "id" "1" false]
                   Sample.requestTwoIds)
                Sample.propsTwoIds)
             Sample.store))
     = connectCommands
         (callsOf (Sample.submit Sample.propsTwoIds Sample.store)).
Proof.
  pose proof
    (only_enabled_parameters_reach_the_query_string
       (Collaborators.interpolate Sample.environments)
       Collaborators.buildQueryStringFromParams
       Collaborators.joinUrlAndQueryString
       Sample.params Sample.propsTwoIds Sample.store) as H.
  destruct H as (Hpayload & Hfilter & _ & _ & Hsame).
  - reflexivity.
  - split; [ exact Hpayload | ].
    split; [ exact Hfilter | ].
    apply (Hsame [RequestParameter.mk "id" "1" false]).
    + reflexivity.
    + intros request ps environmentId p. reflexivity.
Defined.

(** C5 as stated fails: with [host] unresolved the submit dispatches no
    command at all, not exactly one. *)
Lemma failed_interpolation_dispatches_no_command :
  ActionBarProps.readyState Sample.propsNoHost = false
  /\ callsOf (Sample.submit Sample.propsNoHost Sample.store)
     = [ GetOrCreateForParentId "wrk_1";
         Interpolate Sample.request "env_0"
           (payloadOf Sample.request (CookieJar.mk "wrk_1" []));
         ShowRenderErrorModal Sample.request (UnresolvedVariable "host") ]
  /\ commandCount (callsOf (Sample.submit Sample.propsNoHost Sample.store)) = 0
  /\ commandCount (callsOf (Sample.submit Sample.propsNoHost Sample.store))
     <> 1.
Proof.
  repeat split; try (vm_compute; reflexivity).
  vm_compute. discriminate.
Qed.

(** C6 as stated fails: the fetched jar holds the cookie value
    [{{token}}]; the jar of the connect command holds its rendering,
    [abc]. *)
Lemma rendered_jar_differs_from_fetched_jar :
  fetchedJar Sample.params Sample.storeWithJar
  = CookieJar.mk "wrk_1" [Sample.sessionCookie "{{token}}"]
  /\ List.map ConnectActionParams.cookieJar
       (connectCommands
          (callsOf (Sample.submit (Sample.props false) Sample.storeWithJar)))
     = [CookieJar.mk "wrk_1" [Sample.sessionCookie "abc"]]
  /\ CookieJar.mk "wrk_1" [Sample.sessionCookie "abc"]
     <> fetchedJar Sample.params Sample.storeWithJar.
Proof.
  repeat split; try (vm_compute; reflexivity).
  vm_compute. discriminate.
Qed.

(** C6 as amended, on that store. *)
Lemma connect_cookieJar_is_the_rendered_jar_witness :
  Payload.workspaceCookieJar
    (submittedPayload Sample.params (Sample.props false) Sample.storeWithJar)
  = CookieJar.mk "wrk_1" [Sample.sessionCookie "{{token}}"]
  /\ cookieJars
       (storeOf (Sample.submit (Sample.props false) Sample.storeWithJar))
       !! "wrk_1"
     = Some (CookieJar.mk "wrk_1" [Sample.sessionCookie "{{token}}"]).
Proof.
  pose proof
    (connect_cookieJar_is_the_rendered_jar
       (Collaborators.interpolate Sample.environments)
       Collaborators.buildQueryStringFromParams
       Collaborators.joinUrlAndQueryString
       Sample.params (Sample.props false) Sample.storeWithJar
       {| ConnectActionParams.url := "wss://example.com/chat?id=1";
          ConnectActionParams.headers := [];
          ConnectActionParams.authentication := [];
          ConnectActionParams.cookieJar :=
            CookieJar.mk "wrk_1" [Sample.sessionCookie "abc"];
          ConnectActionParams.suppressUserAgent := None |}) as H.
  destruct H as (Hpayload & _ & Hstore).
  - vm_compute. apply list_elem_of_here.
  - split; [ exact Hpayload | exact Hstore ].
Defined.

(** C10 on the spec's example: the request has [suppressUserAgent] set, the
    interpolation output has no such property, and neither has the connect
    command. *)
Lemma connect_suppressUserAgent_is_the_rendered_one_witness :
  exists rendered,
    interpolated (Collaborators.interpolate Sample.environments)
      Sample.params (Sample.props false) Sample.store
    = Resolved rendered
    /\ (None : option bool) = Rendered.suppressUserAgent rendered.
Proof.
  apply (connect_suppressUserAgent_is_the_rendered_one
           (Collaborators.interpolate Sample.environments)
           Collaborators.buildQueryStringFromParams
           Collaborators.joinUrlAndQueryString
           Sample.params (Sample.props false) Sample.store
           {| ConnectActionParams.url := "wss://example.com/chat?id=1";
              ConnectActionParams.headers := [];
              ConnectActionParams.authentication := [];
              ConnectActionParams.cookieJar := CookieJar.mk "wrk_1" [];
              ConnectActionParams.suppressUserAgent := None |}).
  vm_compute. apply list_elem_of_here.
Defined.

(** ** Further properties of [handleSubmit], [connect] and the view *)

(** X3.  Every [fetcher.submit] made by a submit is a JSON [post] to the connect
    route of the identifiers of the route (the route's [requestId], not the
    request's [_id]), and its body carries the headers and the
    authentication of the interpolation output. *)
Theorem fetcher_submit_shape :
  forall interpolate buildQueryStringFromParams joinUrlAndQueryString
         params props s body action method encType,
    FetcherSubmit body action method encType
      ∈ callsOf (handleSubmit interpolate buildQueryStringFromParams
                   joinUrlAndQueryString params props s) ->
    action = connectAction params
    /\ method = "post"
    /\ encType = "application/json"
    /\ exists rendered,
         interpolated interpolate params props s = Resolved rendered
         /\ ConnectActionParams.headers body = Rendered.headers rendered
         /\ ConnectActionParams.authentication body
            = Rendered.authentication rendered.
Proof.
  intros interpolate build join params props s body action method encType.
  destruct (ActionBarProps.readyState props) eqn:Hrs.
  - rewrite (handleSubmit_open _ _ _ _ _ _ Hrs). unfold callsOf. simpl.
    intros Hin. apply list_elem_of_singleton in Hin. discriminate Hin.
  - rewrite (handleSubmit_closed _ _ _ _ _ _ Hrs). unfold callsOf. simpl.
    intros Hin.
    apply elem_of_cons in Hin as [Hin | Hin]; [ discriminate Hin | ].
    apply elem_of_cons in Hin as [Hin | Hin]; [ discriminate Hin | ].
    destruct (interpolated interpolate params props s) as [rendered|error];
      apply list_elem_of_singleton in Hin; [ | discriminate Hin ].
    injection Hin as -> -> -> ->.
    repeat split. exists rendered. repeat split.
Qed.

(** [fetcher_submit_shape] on the spec's example. *)
Lemma fetcher_submit_shape_witness :
  connectAction Sample.params
  = "/organization/org_1/project/proj_1/workspace/wrk_1/debug/request/ws-req_1/connect".
Proof.
  pose proof
    (fetcher_submit_shape
       (Collaborators.interpolate Sample.environments)
       Collaborators.buildQueryStringFromParams
       Collaborators.joinUrlAndQueryString
       Sample.params (Sample.props false) Sample.store
       {| ConnectActionParams.url := "wss://example.com/chat?id=1";
          ConnectActionParams.headers := [];
          ConnectActionParams.authentication := [];
          ConnectActionParams.cookieJar := CookieJar.mk "wrk_1" [];
          ConnectActionParams.suppressUserAgent := None |}
       "/organization/org_1/project/proj_1/workspace/wrk_1/debug/request/ws-req_1/connect"
       "post" "application/json") as H.
  destruct H as (Haction & _).
  - vm_compute. do 2 apply list_elem_of_further. apply list_elem_of_here.
  - symmetry. exact Haction.
Defined.

(** X4.  The view and the submit agree.  When the bar offers the disconnect
    button it shows the connected status, not the icon, the editor is
    read-only, and a submit makes exactly the close call for the identifier
    the button was given; when it offers the connect button it shows the
    icon, the editor can be edited, and a submit makes no close call.  The
    [Enter] binding of the editor is the submit of the form. *)
Theorem view_matches_submit :
  forall interpolate buildQueryStringFromParams joinUrlAndQueryString
         params props s,
    let view :=
      WebSocketActionBar interpolate buildQueryStringFromParams
        joinUrlAndQueryString params props in
    let calls := callsOf (formOnSubmit view s) in
    OneLineEditorProps.onKeyDownEnter (urlBar view) = formOnSubmit view
    /\ match formButton view with
       | DisconnectButton requestId =>
           connectionStatus view = true
           /\ webSocketIcon view = false
           /\ formAriaDisabled view = true
           /\ OneLineEditorProps.readOnly (urlBar view) = true
           /\ calls = [WebSocketClose requestId]
       | ConnectButton =>
           connectionStatus view = false
           /\ webSocketIcon view = true
           /\ formAriaDisabled view = false
           /\ OneLineEditorProps.readOnly (urlBar view) = false
           /\ closeCommands calls = []
       end.
Proof.
  intros interpolate build join params props s view calls.
  subst calls view. unfold WebSocketActionBar. simpl.
  split; [ reflexivity | ].
  destruct (ActionBarProps.readyState props) eqn:Hrs; simpl.
  - rewrite (handleSubmit_open _ _ _ _ _ _ Hrs). repeat split; reflexivity.
  - rewrite (closed_closeCommands _ _ _ _ _ _ Hrs). repeat split; reflexivity.
Qed.

(** Splitting at the first [/]: a slash-free head is determined by the
    whole. *)
Lemma slashFree_head_inj a a' x y :
  slashFree a = true -> slashFree a' = true ->
  a +:+ String "/" x = a' +:+ String "/" y ->
  a = a' /\ x = y.
Proof.
  revert a'. induction a as [|c a IH]; intros [|c' a'] Ha Ha' Heq;
    simpl in *.
  - injection Heq as ->. split; reflexivity.
  - injection Heq as <- _. rewrite Ascii.eqb_refl in Ha'. discriminate Ha'.
  - injection Heq as -> _. rewrite Ascii.eqb_refl in Ha. discriminate Ha.
  - injection Heq as -> Heq.
    apply andb_true_iff in Ha as [_ Ha]. apply andb_true_iff in Ha' as [_ Ha'].
    destruct (IH a' Ha Ha' Heq) as [-> ->]. split; reflexivity.
Qed.

(** X5.  Routes whose identifiers hold no [/] are told apart by their connect
    action: equal actions come from equal routes. *)
Theorem connectAction_injective :
  forall params params',
    slashFreeRoute params = true ->
    slashFreeRoute params' = true ->
    connectAction params = connectAction params' ->
    params = params'.
Proof.
  intros [o p w r] [o' p' w' r'] H H' Heq.
  unfold slashFreeRoute in H, H'. simpl in H, H'.
  repeat (apply andb_true_iff in H as [H ?]).
  repeat (apply andb_true_iff in H' as [H' ?]).
  unfold connectAction in Heq. simpl in Heq.
  repeat (injection Heq as Heq).
  apply slashFree_head_inj in Heq as [-> Heq]; [ | assumption | assumption ].
  repeat (injection Heq as Heq).
  apply slashFree_head_inj in Heq as [-> Heq]; [ | assumption | assumption ].
  repeat (injection Heq as Heq).
  apply slashFree_head_inj in Heq as [-> Heq]; [ | assumption | assumption ].
  repeat (injection Heq as Heq).
  apply slashFree_head_inj in Heq as [-> _]; [ | assumption | assumption ].
  reflexivity.
Qed.

(** [connectAction_injective] on the sample route. *)
Lemma connectAction_injective_witness : Sample.params = Sample.params.
Proof.
  apply connectAction_injective; reflexivity.
Defined.

(** ** Facts about the listener lists *)

Lemma sameRegistration_listener a b :
  Registration.listener a <> Registration.listener b ->
  sameRegistration a b = false.
Proof.
  intros Hne. unfold sameRegistration.
  apply Nat.eqb_neq in Hne. rewrite Hne, andb_false_r. reflexivity.
Qed.

Lemma sameRegistration_refl a : sameRegistration a a = true.
Proof.
  unfold sameRegistration.
  rewrite String.eqb_refl, Nat.eqb_refl, Bool.eqb_reflx. reflexivity.
Qed.

(** Adding a listener that is younger than every registered one appends
    it. *)
Lemma addEventListener_fresh r rs :
  (forall x, x ∈ rs -> Registration.listener x < Registration.listener r) ->
  addEventListener r rs = rs ++ [r].
Proof.
  intros Hfresh. unfold addEventListener.
  destruct (existsb (sameRegistration r) rs) eqn:Hex; [ | reflexivity ].
  apply existsb_exists in Hex as [x [Hin Hsame]].
  apply list_elem_of_In, Hfresh in Hin.
  rewrite sameRegistration_listener in Hsame by lia. discriminate Hsame.
Qed.

(** Removing it again gives the list back. *)
Lemma removeEventListener_fresh r rs :
  (forall x, x ∈ rs -> Registration.listener x < Registration.listener r) ->
  removeEventListener r (rs ++ [r]) = rs.
Proof.
  intros Hfresh. unfold removeEventListener.
  rewrite List.filter_app. simpl. rewrite sameRegistration_refl. simpl.
  rewrite app_nil_r.
  induction rs as [|x rs IH]; [ reflexivity | ]. simpl.
  rewrite sameRegistration_listener.
  - simpl. f_equal. apply IH. intros y Hy. apply Hfresh. by right.
  - specialize (Hfresh x ltac:(by left)). lia.
Qed.

(** ** The hooks keep their invariant *)

Lemma effect_fresh l document :
  (forall rs x,
     document !! "sidebar-request-gridlist" = Some rs -> x ∈ rs ->
     Registration.listener x < Listener.identity l) ->
  effect l document
  = onElementById "sidebar-request-gridlist"
      (fun rs => rs ++ [keydownRegistration l]) document.
Proof.
  intros Hfresh. unfold effect, onElementById.
  apply alter_ext. intros rs Hrs.
  apply addEventListener_fresh. intros x Hx. simpl. eauto.
Qed.

Lemma effect_cleanup_fresh l l' document :
  (forall rs x,
     document !! "sidebar-request-gridlist" = Some rs -> x ∈ rs ->
     Registration.listener x < Listener.identity l) ->
  Listener.identity l < Listener.identity l' ->
  effect l'
    (cleanup l
       (onElementById "sidebar-request-gridlist"
          (fun rs => rs ++ [keydownRegistration l]) document))
  = onElementById "sidebar-request-gridlist"
      (fun rs => rs ++ [keydownRegistration l']) document.
Proof.
  intros Hfresh Hlt. unfold effect, cleanup, onElementById.
  rewrite !alter_alter_eq. apply alter_ext. intros rs Hrs. simpl.
  rewrite removeEventListener_fresh by (intros x Hx; simpl; eauto).
  apply addEventListener_fresh. intros x Hx. simpl.
  specialize (Hfresh rs x Hrs Hx). lia.
Qed.

Lemma cleanup_fresh l document :
  (forall rs x,
     document !! "sidebar-request-gridlist" = Some rs -> x ∈ rs ->
     Registration.listener x < Listener.identity l) ->
  cleanup l
    (onElementById "sidebar-request-gridlist"
       (fun rs => rs ++ [keydownRegistration l]) document)
  = document.
Proof.
  intros Hfresh. unfold cleanup, onElementById.
  rewrite alter_alter_eq. apply alter_id. intros rs Hrs. simpl.
  apply removeEventListener_fresh. intros x Hx. simpl. eauto.
Qed.

Lemma invariant_mount scope page0 :
  HooksInvariant page0 [scope] scope
    (fst (mount scope page0)) (snd (mount scope page0)).
Proof.
  unfold mount, useCallback. simpl.
  constructor; simpl; try reflexivity; try lia;
    try (apply list_elem_of_singleton; reflexivity).
  intros Hwf. apply effect_fresh. intros rs x Hrs Hx. simpl.
  specialize (Hwf _ _ _ Hrs Hx). lia.
Qed.

Lemma invariant_update page0 history scope instance page scope' :
  HooksInvariant page0 history scope instance page ->
  HooksInvariant page0 (history ++ [scope']) scope'
    (fst (update instance scope' page)) (snd (update instance scope' page)).
Proof.
  intros [Hcd Hcs Hci Hhd Hhs Hhc Hhi Hhh Hsh Hed Heh [Hel Heu] Hpe Hps Hpd].
  destruct instance as [[cd c] [hd h] [ed l]]. simpl in *. subst cd hd ed.
  assert (wellFormed page0 ->
          forall rs x,
            elements page0 !! "sidebar-request-gridlist" = Some rs ->
            x ∈ rs -> Registration.listener x < Listener.identity l) as Hold.
  { intros Hwf rs x Hrs Hx. specialize (Hwf _ _ _ Hrs Hx). lia. }
  unfold update, useCallback. simpl.
  destruct (decide (connectDeps scope = connectDeps scope')) as [Hc|Hc]; simpl.
  - destruct (decide (handleSubmitDeps c scope = handleSubmitDeps c scope'))
      as [Hh|Hh]; simpl.
    + rewrite decide_True by reflexivity. simpl.
      constructor; simpl; try reflexivity; try lia; try congruence;
        try assumption;
        try (apply elem_of_app; auto; fail).
      apply elem_of_app. right. apply list_elem_of_singleton. reflexivity.
    + rewrite decide_False by lia. simpl.
      constructor; simpl; try reflexivity; try lia; try congruence;
        try assumption;
        try (apply elem_of_app; right; apply list_elem_of_singleton;
             reflexivity).
      intros Hwf. rewrite (Hpe Hwf).
      apply effect_cleanup_fresh; [ exact (Hold Hwf) | simpl; lia ].
  - destruct (decide (handleSubmitDeps c scope
                      = handleSubmitDeps (ConnectCallback.mk (functions page) scope') scope'))
      as [Hh|Hh]; simpl.
    + exfalso. unfold handleSubmitDeps in Hh. simpl in Hh.
      injection Hh as Hid _ _ _ _. lia.
    + rewrite decide_False by lia. simpl.
      constructor; simpl; try reflexivity; try lia; try congruence;
        try assumption;
        try (apply elem_of_app; right; apply list_elem_of_singleton;
             reflexivity).
      intros Hwf. rewrite (Hpe Hwf).
      apply effect_cleanup_fresh; [ exact (Hold Hwf) | simpl; lia ].
Qed.

Lemma invariant_lifecycle scope scopes page0 :
  HooksInvariant page0 (scope :: scopes) (currentScope scope scopes)
    (fst (lifecycle scope scopes page0)) (snd (lifecycle scope scopes page0)).
Proof.
  induction scopes as [|scope' scopes IH] using rev_ind.
  - apply invariant_mount.
  - unfold lifecycle, currentScope in *.
    rewrite fold_left_app, last_last. simpl.
    change (scope :: scopes ++ [scope']) with ((scope :: scopes) ++ [scope']).
    eapply invariant_update. exact IH.
Qed.

Section CurrentCallbacks.

Variable interpolate :
  WebSocketRequest.t -> string -> Payload.t -> InterpolationResult.
Variable buildQueryStringFromParams : list RequestParameter.t -> string.
Variable joinUrlAndQueryString : string -> string -> string.

(** Under the invariant the memoized [handleSubmit] does what the body of
    [handleSubmit] does in the latest scope. *)
Lemma callHandleSubmit_current page0 history scope instance page s :
  HooksInvariant page0 history scope instance page ->
  coherent history ->
  callHandleSubmit interpolate buildQueryStringFromParams
    joinUrlAndQueryString (snd (handleSubmitHook instance)) s
  = handleSubmit interpolate buildQueryStringFromParams
      joinUrlAndQueryString (Scope.params scope) (Scope.props scope) s.
Proof.
  intros [_ Hcs _ _ Hhs Hhc _ Hhh Hsh _ _ _ _ _ _] Hcoherent.
  destruct instance as [[cd c] [hd h] [ed l]]. simpl in *.
  unfold handleSubmitDeps in Hhs. injection Hhs as Henv Hready Href Hws.
  pose proof (Hcoherent _ _ Hhh Hsh Href) as Hrequest.
  assert (Scope.params (ConnectCallback.scope c) = Scope.params scope)
    as Hparams.
  { unfold connectDeps in Hcs. injection Hcs as _ Ho Hp Hr Hw.
    destruct (Scope.params (ConnectCallback.scope c)), (Scope.params scope).
    simpl in *. congruence. }
  unfold callHandleSubmit, handleSubmit, callConnect.
  rewrite Hhc, Hparams, Hrequest, Henv, Hready, Hws. reflexivity.
Qed.

End CurrentCallbacks.


(** X7.  Every way to submit runs [handleSubmit] with the latest props.  After a
    mount and any number of renders, the submit of the form, the [Enter]
    binding of the editor, the [request_send] shortcut and a keydown with
    the meta key and [Enter] on the registered listener all make the calls
    and the store change of [handleSubmit] for the latest render; the form
    event has its default prevented; and a keydown without the meta key, or
    with another key, makes no call and leaves the store as it is. *)
Theorem every_trigger_submits_current_props :
  forall interpolate buildQueryStringFromParams joinUrlAndQueryString
         scope scopes page event keydown s,
    coherent (scope :: scopes) ->
    let instance := fst (lifecycle scope scopes page) in
    let handleSubmit' := snd (handleSubmitHook instance) in
    let run :=
      handleSubmit interpolate buildQueryStringFromParams
        joinUrlAndQueryString
        (Scope.params (currentScope scope scopes))
        (Scope.props (currentScope scope scopes)) s in
    onSubmit interpolate buildQueryStringFromParams joinUrlAndQueryString
      handleSubmit' event s
    = (mkFormEvent true, storeOf run, callsOf run)
    /\ (exists handler,
          bound "Enter"
            (keybindings interpolate buildQueryStringFromParams
               joinUrlAndQueryString handleSubmit') = Some handler
          /\ handler s = run)
    /\ (exists handler,
          bound "request_send"
            (shortcuts interpolate buildQueryStringFromParams
               joinUrlAndQueryString handleSubmit') = Some handler
          /\ forall document editor count,
               handler (mkPage s document editor count)
               = (mkPage (storeOf run) document editor count, callsOf run))
    /\ sendOnMetaEnter interpolate buildQueryStringFromParams
         joinUrlAndQueryString (snd (effectHook instance)) keydown s
       = if KeyboardEvent.metaKey keydown
            && String.eqb (KeyboardEvent.key keydown) "Enter"
         then run
         else (tt, s, []).
Proof.
  intros interpolate build join scope scopes page event keydown s Hcoherent
         instance handleSubmit' run.
  pose proof (invariant_lifecycle scope scopes page) as Hinv.
  pose proof (callHandleSubmit_current interpolate build join _ _ _ _ _ s
                Hinv Hcoherent) as Hcurrent.
  fold instance in Hinv, Hcurrent. fold handleSubmit' run in Hcurrent.
  split; [ | split; [ | split ] ].
  - unfold onSubmit, bind. rewrite Hcurrent.
    destruct run as [[[] s1] t1]. unfold storeOf, callsOf, ret. simpl.
    rewrite app_nil_r. reflexivity.
  - eexists. split; [ reflexivity | exact Hcurrent ].
  - eexists. split; [ reflexivity | ].
    intros document editor count. unfold onPage. simpl.
    rewrite Hcurrent. destruct run as [[[] s1] t1]. reflexivity.
  - unfold sendOnMetaEnter.
    rewrite (effect_handleSubmit _ _ _ _ _ Hinv).
    fold handleSubmit'.
    destruct (KeyboardEvent.metaKey keydown
              && String.eqb (KeyboardEvent.key keydown) "Enter");
      [ exact Hcurrent | reflexivity ].
Qed.


(** X9.  Unmounting after a mount and any number of renders gives every element
    of the page the listeners it had before the mount: the listener of the
    component does not outlive it. *)
Theorem unmount_restores_listeners :
  forall scope scopes page,
    wellFormed page ->
    elements
      (unmount (fst (lifecycle scope scopes page))
               (snd (lifecycle scope scopes page)))
    = elements page.
Proof.
  intros scope scopes page Hwf.
  pose proof (invariant_lifecycle scope scopes page) as Hinv.
  unfold unmount. simpl.
  rewrite (page_elements _ _ _ _ _ Hinv Hwf).
  apply cleanup_fresh. intros rs x Hrs Hx.
  specialize (Hwf _ _ _ Hrs Hx).
  pose proof (effect_identity _ _ _ _ _ Hinv) as [Hlow _]. lia.
Qed.

(** X10.  A render that changes no entry of the two dependency lists (it may
    change [defaultValue]) keeps both callbacks, does not run the effect
    again and leaves the listeners of the page as they are. *)
Theorem render_with_same_dependencies_keeps_hooks :
  forall scope scopes page scope',
    sameDependencies (currentScope scope scopes) scope' ->
    fst (lifecycle scope (scopes ++ [scope']) page)
    = fst (lifecycle scope scopes page)
    /\ elements (snd (lifecycle scope (scopes ++ [scope']) page))
       = elements (snd (lifecycle scope scopes page)).
Proof.
  intros scope scopes page scope' (Hf & Hp & Hr & He & Hs).
  pose proof (invariant_lifecycle scope scopes page) as Hinv.
  unfold lifecycle in *. rewrite fold_left_app. simpl.
  destruct (fold_left _ scopes (mount scope page)) as [instance page1].
  simpl in *.
  destruct Hinv as [Hcd _ _ Hhd _ _ _ _ _ Hed _ _ _ _ _].
  destruct instance as [[cd c] [hd h] [ed l]]. simpl in *.
  assert (connectDeps scope' = cd) as Hc'.
  { rewrite Hcd. unfold connectDeps. rewrite Hf, Hp. reflexivity. }
  assert (handleSubmitDeps c scope' = hd) as Hh'.
  { rewrite Hhd. unfold handleSubmitDeps. rewrite Hp, Hr, He, Hs. reflexivity. }
  unfold update, useCallback. simpl.
  rewrite (decide_True (P := cd = connectDeps scope')) by congruence. simpl.
  rewrite (decide_True (P := hd = handleSubmitDeps c scope')) by congruence.
  simpl. rewrite decide_True by assumption. simpl.
  split; reflexivity.
Qed.

(** ** The hooks on the sample renders *)

Lemma sample_coherent :
  coherent [SampleHooks.closed; SampleHooks.opened].
Proof.
  intros a b Ha Hb _.
  assert (forall x,
            x ∈ [SampleHooks.closed; SampleHooks.opened] ->
            ActionBarProps.request (Scope.props x) = Sample.request) as Hall.
  { intros x Hx.
    apply elem_of_cons in Hx as [-> | Hx]; [ reflexivity | ].
    apply list_elem_of_singleton in Hx as ->. reflexivity. }
  rewrite (Hall a Ha), (Hall b Hb). reflexivity.
Qed.

Lemma sample_wellFormed : wellFormed SampleHooks.page.
Proof.
  intros id rs r Hrs Hr. unfold SampleHooks.page in Hrs. simpl in Hrs.
  apply lookup_singleton_Some in Hrs as [_ <-].
  apply list_elem_of_singleton in Hr as ->. simpl. lia.
Qed.


(** [every_trigger_submits_current_props] after the connection opened: a
    keydown of [Enter] with the meta key closes the connection. *)
Lemma every_trigger_submits_current_props_witness :
  sendOnMetaEnter (Collaborators.interpolate Sample.environments)
    Collaborators.buildQueryStringFromParams
    Collaborators.joinUrlAndQueryString
    (snd (effectHook
            (fst (lifecycle SampleHooks.closed [SampleHooks.opened]
                    SampleHooks.page))))
    (KeyboardEvent.mk "Enter" true) Sample.store
  = (tt, Sample.store, [WebSocketClose "ws-req_1"]).
Proof.
  pose proof
    (every_trigger_submits_current_props
       (Collaborators.interpolate Sample.environments)
       Collaborators.buildQueryStringFromParams
       Collaborators.joinUrlAndQueryString
       SampleHooks.closed [SampleHooks.opened] SampleHooks.page
       (mkFormEvent false) (KeyboardEvent.mk "Enter" true) Sample.store
       sample_coherent) as H.
  destruct H as (_ & _ & _ & Hkey). exact Hkey.
Defined.


(** [unmount_restores_listeners] on the sample page. *)
Lemma unmount_restores_listeners_witness :
  elements
    (unmount
       (fst (lifecycle SampleHooks.closed [SampleHooks.opened]
               SampleHooks.page))
       (snd (lifecycle SampleHooks.closed [SampleHooks.opened]
               SampleHooks.page)))
  = {[ "sidebar-request-gridlist" := [Registration.mk "keydown" 0 false] ]}.
Proof.
  apply (unmount_restores_listeners SampleHooks.closed [SampleHooks.opened]
           SampleHooks.page sample_wellFormed).
Defined.

(** [render_with_same_dependencies_keeps_hooks]: retyping the URL while the
    connection is open keeps the hooks. *)
Lemma render_with_same_dependencies_keeps_hooks_witness :
  fst (lifecycle SampleHooks.closed
         ([SampleHooks.opened] ++ [SampleHooks.retyped]) SampleHooks.page)
  = fst (lifecycle SampleHooks.closed [SampleHooks.opened] SampleHooks.page).
Proof.
  apply (render_with_same_dependencies_keeps_hooks
           SampleHooks.closed [SampleHooks.opened] SampleHooks.page
           SampleHooks.retyped).
  repeat split.
Defined.

(** ** The request object is not written to *)

Lemma preserves_ret {A : Type} (a : A) : JsHeap.preserves (JsHeap.ret a).
Proof. intros h address o H. exact H. Qed.

Lemma preserves_bind {A B : Type} (m : JsHeap.Js A) (k : A -> JsHeap.Js B) :
  JsHeap.preserves m ->
  (forall a, JsHeap.preserves (k a)) ->
  JsHeap.preserves (JsHeap.bind m k).
Proof.
  intros Hm Hk h address o H.
  specialize (Hm h address o H).
  unfold JsHeap.heapAfter, JsHeap.bind in *.
  destruct (m h) as [[a|] h1]; simpl in *.
  - apply (Hk a h1 address o Hm).
  - exact Hm.
Qed.

(** A new object does not take the place of an old one. *)
Lemma preserves_allocate o : JsHeap.preserves (JsHeap.allocate o).
Proof.
  intros h address o' H. unfold JsHeap.heapAfter, JsHeap.allocate. simpl.
  rewrite lookup_insert_ne; [ exact H | ].
  intros <-. apply (is_fresh (dom h)).
  apply elem_of_dom. rewrite H. eauto.
Qed.

Lemma preserves_getProperty value name :
  JsHeap.preserves (JsHeap.getProperty value name).
Proof. intros h address o H. exact H. Qed.

Lemma preserves_filterItems callback items :
  (forall item, JsHeap.preserves (callback item)) ->
  JsHeap.preserves (JsHeap.filterItems callback items).
Proof.
  intros Hcallback. induction items as [|item rest IH]; simpl.
  - apply preserves_ret.
  - apply preserves_bind; [ apply Hcallback | ]. intros keep.
    apply preserves_bind; [ exact IH | ]. intros kept.
    apply preserves_ret.
Qed.

(** [filter] leaves the array it reads as it is: what it keeps goes in a
    new array. *)
Lemma preserves_filter callback array :
  (forall item, JsHeap.preserves (callback item)) ->
  JsHeap.preserves (JsHeap.filter callback array).
Proof.
  intros Hcallback h address o H.
  unfold JsHeap.heapAfter, JsHeap.filter.
  destruct array as [| | |a]; try exact H.
  destruct (h !! a) as [[properties|items]|]; try exact H.
  apply (preserves_bind (JsHeap.filterItems callback items)
           (fun kept => JsHeap.allocate (JsHeap.Array kept))).
  - apply preserves_filterItems, Hcallback.
  - intros kept. apply preserves_allocate.
  - exact H.
Qed.

(** An assignment to a property is a write: the model tells it apart. *)
Lemma setProperty_does_not_preserve :
  ~ JsHeap.preserves
      (JsHeap.setProperty (JsHeap.Reference 1) "parameters" JsHeap.Undefined).
Proof.
  intros Hpreserves.
  pose proof (Hpreserves SampleHeap.heap 1 _ eq_refl) as H.
  vm_compute in H. discriminate H.
Qed.

Ltac preserve :=
  repeat first
    [ apply preserves_ret
    | apply preserves_getProperty
    | apply preserves_allocate
    | apply preserves_filter; intros ?
    | apply preserves_bind; [ | intros ? ]
    | solve [ auto ] ].

(** C8.  A submit writes to no object it did not create.  Provided the
    collaborators it calls write to no existing object either, every object
    of the heap is after [handleSubmit] what it was before, whether the run
    closes the connection, dispatches a connect command, stops at a failed
    interpolation or throws: the request, its headers, its authentication,
    its parameter array and every parameter.  So every property of the
    request reads as before. *)
Theorem submit_writes_to_no_object :
  forall webSocketClose getOrCreateForParentId
         tryToInterpolateRequestOrShowRenderErrorModal
         buildQueryStringFromParams joinUrlAndQueryString fetcherSubmit,
    (forall argument, JsHeap.preserves (webSocketClose argument)) ->
    (forall parentId, JsHeap.preserves (getOrCreateForParentId parentId)) ->
    (forall argument,
       JsHeap.preserves
         (tryToInterpolateRequestOrShowRenderErrorModal argument)) ->
    (forall parameters,
       JsHeap.preserves (buildQueryStringFromParams parameters)) ->
    (forall url queryString,
       JsHeap.preserves (joinUrlAndQueryString url queryString)) ->
    (forall body action, JsHeap.preserves (fetcherSubmit body action)) ->
    forall params request environmentId isOpen h,
      let h' :=
        JsHeap.heapAfter
          (JsHeap.handleSubmit webSocketClose getOrCreateForParentId
             tryToInterpolateRequestOrShowRenderErrorModal
             buildQueryStringFromParams joinUrlAndQueryString fetcherSubmit
             params request environmentId isOpen) h in
      (forall address o, h !! address = Some o -> h' !! address = Some o)
      /\ (forall address o name,
            request = JsHeap.Reference address ->
            h !! address = Some o ->
            JsHeap.readProperty h' request name
            = JsHeap.readProperty h request name).
Proof.
  intros webSocketClose getOrCreate tryToInterpolate build join fetcherSubmit
         Hclose Hjar Hinterpolate Hbuild Hjoin Hsubmit
         params request environmentId isOpen h h'.
  assert (JsHeap.preserves
            (JsHeap.handleSubmit webSocketClose getOrCreate tryToInterpolate
               build join fetcherSubmit params request environmentId isOpen))
    as Hpreserves.
  { unfold JsHeap.handleSubmit, JsHeap.connect.
    destruct isOpen; preserve.
    destruct (JsHeap.truthy _); preserve. }
  split.
  - intros address o H. exact (Hpreserves h address o H).
  - intros address o name -> H. unfold JsHeap.readProperty.
    fold h' in Hpreserves. unfold h'.
    rewrite (Hpreserves h address o H), H. reflexivity.
Qed.

(** C8 on the sample heap, on the connect path: the request's parameter
    array still holds both parameters. *)
Lemma submit_writes_to_no_object_witness :
  JsHeap.heapAfter (SampleHeap.submit false) SampleHeap.heap !! 4
  = Some (JsHeap.Array [JsHeap.Reference 5; JsHeap.Reference 6]).
Proof.
  apply (submit_writes_to_no_object
           SampleHeap.webSocketClose SampleHeap.getOrCreateForParentId
           SampleHeap.tryToInterpolate SampleHeap.buildQueryStringFromParams
           SampleHeap.joinUrlAndQueryString SampleHeap.fetcherSubmit).
  - intros argument. apply preserves_ret.
  - intros parentId. apply preserves_allocate.
  - intros argument. apply preserves_getProperty.
  - intros parameters. apply preserves_ret.
  - intros url queryString. apply preserves_ret.
  - intros body action. apply preserves_ret.
  - reflexivity.
Defined.
